(** * Employee service: request validation, projections and service rules

    A shallow embedding of the TypeScript employee pipeline
    (request DTOs, mapper, repository, service, controller) and the
    properties its specification states about it.

    Conventions of the embedding.
    - A JavaScript string is a [string]; a character stands for one code
      unit below 256, so white space is TAB, LF, VT, FF, CR, SP and NBSP.
    - A JavaScript number is an IEEE 754 binary64 value, [spec_float].
    - [undefined] and [null] are kept apart wherever the code can see the
      difference ([maybe]); a class field that can only be [undefined] or a
      value is an [option].
    - The salary and the hire date of a request body are of type [any]:
      [undefined], [null], a string, a number, a boolean or a [Date]
      (arrays and other objects are left out).  The four text fields are
      strings, [null] or [undefined], as [CreateEmployeeData] declares
      them: on any other value [v?.trim()] throws a TypeError while the
      DTO is built.
    - A class field declared without initialiser creates no own property:
      an instance owns exactly the properties its constructor assigned.
    - An [async] method is a tree of awaited Prisma client calls; the
      database is the environment that answers them. *)

From Stdlib Require Import ZArith Ascii String List Bool Lia.
From Stdlib Require Import Floats.SpecFloat.
From stdpp Require Import base option list strings gmap.

Set Implicit Arguments.
Set Default Proof Using "Type".

(** ** JavaScript values *)

(** A value of a TypeScript type [A] as it reaches the code at run time:
    the property may be missing ([undefined]) or [null]. *)
Inductive maybe (A : Type) : Type :=
| Undefined
| Null
| Val (a : A).
Arguments Undefined {A}.
Arguments Null {A}.
Arguments Val {A} a.

(** [v?.m()] : the method is called on a value only. *)
Definition optional_call {A B : Type} (m : A -> B) (v : maybe A) : option B :=
  match v with
  | Val a => Some (m a)
  | Undefined | Null => None
  end.

(** *** Numbers *)

Abbreviation number := spec_float.

Definition NaN : number := S754_nan.
Definition zero : number := S754_zero false.

(** Round the integer [m * 2^e] to the nearest binary64 value. *)
Definition number_of_scaled (m e : Z) : number := binary_normalize 53 1024 m e false.
Definition number_of_Z (z : Z) : number := number_of_scaled z 0.

Definition isNaN (x : number) : bool :=
  match x with
  | S754_nan => true
  | _ => false
  end.

(** [x <= y] and [x < y] on numbers; false as soon as one side is NaN. *)
Definition num_le (x y : number) : bool := SFleb x y.
Definition num_lt (x y : number) : bool := SFltb x y.

(** *** Strings *)

Definition code (c : ascii) : N := N_of_ascii c.

Definition is_white_space (c : ascii) : bool :=
  (N.leb 9 (code c) && N.leb (code c) 13) || N.eqb (code c) 32 || N.eqb (code c) 160.

Fixpoint trimStart (s : string) : string :=
  match s with
  | EmptyString => EmptyString
  | String c s' => if is_white_space c then trimStart s' else s
  end.

Fixpoint trimEnd (s : string) : string :=
  match s with
  | EmptyString => EmptyString
  | String c s' =>
      match trimEnd s' with
      | EmptyString => if is_white_space c then EmptyString else String c EmptyString
      | t => String c t
      end
  end.

Definition trim (s : string) : string := trimEnd (trimStart s).

Definition lower_char (c : ascii) : ascii :=
  let n := code c in
  if (N.leb 65 n && N.leb n 90)
     || (N.leb 192 n && N.leb n 222 && negb (N.eqb n 215))
  then ascii_of_N (n + 32) else c.

Fixpoint toLowerCase (s : string) : string :=
  match s with
  | EmptyString => EmptyString
  | String c s' => String (lower_char c) (toLowerCase s')
  end.

(** *** Regular expressions, matched by derivatives *)

Inductive regex : Type :=
| NoMatch
| Eps
| Class (p : ascii -> bool)
| Seq (r1 r2 : regex)
| Alt (r1 r2 : regex)
| Star (r : regex).

Definition Plus (r : regex) : regex := Seq r (Star r).

Fixpoint nullable (r : regex) : bool :=
  match r with
  | NoMatch => false
  | Eps => true
  | Class _ => false
  | Seq r1 r2 => nullable r1 && nullable r2
  | Alt r1 r2 => nullable r1 || nullable r2
  | Star _ => true
  end.

Fixpoint deriv (c : ascii) (r : regex) : regex :=
  match r with
  | NoMatch => NoMatch
  | Eps => NoMatch
  | Class p => if p c then Eps else NoMatch
  | Seq r1 r2 =>
      if nullable r1 then Alt (Seq (deriv c r1) r2) (deriv c r2)
      else Seq (deriv c r1) r2
  | Alt r1 r2 => Alt (deriv c r1) (deriv c r2)
  | Star r1 => Seq (deriv c r1) (Star r1)
  end.

(** [/^r$/.test(s)] *)
Fixpoint test (r : regex) (s : string) : bool :=
  match s with
  | EmptyString => nullable r
  | String c s' => test (deriv c r) s'
  end.

Definition lit (a : ascii) : regex := Class (Ascii.eqb a).

(** *** Truthiness and coercions *)

Class ToBoolean (A : Type) := truthy : A -> bool.

#[global] Instance string_truthy : ToBoolean string :=
  fun s => match s with EmptyString => false | _ => true end.

#[global] Instance number_truthy : ToBoolean number :=
  fun x => match x with
           | S754_zero _ | S754_nan => false
           | _ => true
           end.

#[global] Instance sum_truthy {A B} `{ToBoolean A, ToBoolean B} : ToBoolean (A + B) :=
  fun v => match v with inl a => truthy a | inr b => truthy b end.

#[global] Instance maybe_truthy {A} `{ToBoolean A} : ToBoolean (maybe A) :=
  fun v => match v with Val a => truthy a | Undefined | Null => false end.

#[global] Instance option_truthy {A} `{ToBoolean A} : ToBoolean (option A) :=
  fun v => match v with Some a => truthy a | None => false end.

(** [ToString] on a string that may be [undefined]. *)
Definition ToString (v : option string) : string :=
  match v with
  | None => "undefined"
  | Some s => s
  end.

(** *** Dates *)

(** A [Date] object is its time value, the milliseconds since the epoch,
    NaN for an invalid date. *)
Record Date : Type := mkDate { getTime : number }.

#[global] Instance Date_truthy : ToBoolean Date := fun _ => true.

(** [TimeClip]: a time value is a whole number of milliseconds, at most
    8.64e15 in magnitude; anything else is NaN. *)
Definition TimeClip (time : number) : number :=
  match time with
  | S754_nan | S754_infinity _ => NaN
  | S754_zero _ => zero
  | S754_finite s m e =>
      let limit := 8640000000000000%Z in
      let too_large :=
        if Z.leb 0 e then Z.ltb limit (Z.pos m * 2 ^ e)
        else Z.ltb (limit * 2 ^ (- e)) (Z.pos m) in
      let whole := if Z.leb 0 e then (Z.pos m * 2 ^ e)%Z else (Z.pos m / 2 ^ (- e))%Z in
      if too_large then NaN
      else if Z.eqb whole 0 then zero
      else number_of_Z (if s then (- whole)%Z else whole)
  end.

(** *** Values of type [any] *)

(** A value that is neither [undefined], [null] nor a string. *)
Inductive scalar : Type :=
| JNumber (x : number)
| JBoolean (b : bool)
| JDate (d : Date).

(** A value of type [any]; [typeof v === 'string'] holds of [Val (inr s)]. *)
Abbreviation any := (maybe (scalar + string)).

#[global] Instance scalar_truthy : ToBoolean scalar :=
  fun v => match v with
           | JNumber x => truthy x
           | JBoolean b => b
           | JDate d => truthy d
           end.

(** [ToNumber] on a value that is not a string; a [Date] converts to its
    time value. *)
Definition ToNumber (v : maybe scalar) : number :=
  match v with
  | Undefined => NaN
  | Null => zero
  | Val (JNumber x) => x
  | Val (JBoolean b) => if b then number_of_Z 1 else zero
  | Val (JDate d) => getTime d
  end.

(** ** Built-ins of the engine

    The text-parsing functions of the engine are not part of the program;
    the development holds for every engine. *)
Class Builtins : Type := {
  parseFloat : string -> number;
  parseInt : string -> number;
  Date_parse : string -> number;
}.

(** ** Validation results ([common.types.ts]) *)

Record ValidationResult : Type := mkValidationResult {
  isValid : bool;
  errors : list string;
}.

(** [errors.push(msg)] *)
Definition push (errors : list string) (msg : string) : list string := errors ++ [msg].

(** [/^[^\s@]+@[^\s@]+\.[^\s@]+$/] *)
Definition not_space_at (c : ascii) : bool :=
  negb (is_white_space c || Ascii.eqb c "@").

Definition emailRegex : regex :=
  Seq (Plus (Class not_space_at))
    (Seq (lit "@")
       (Seq (Plus (Class not_space_at))
          (Seq (lit ".") (Plus (Class not_space_at))))).

(** ** Request DTOs ([employee.request.dto.ts]) *)

Module CreateEmployeeData.
Record t : Type := mk {
  name : maybe string;
  email : maybe string;
  position : maybe string;
  department : maybe string;
  salary : any;
  hireDate : any;
}.

(** The body [{}] and every body without a recognized key. *)
Definition empty : t :=
  mk Undefined Undefined Undefined Undefined Undefined Undefined.
End CreateEmployeeData.

Section DateConstructor.
Context `{Builtins}.

(** [new Date(v)]: a [Date] is copied, a string is parsed, any other
    value is converted to a number and clipped to a time value. *)
Definition newDate (v : any) : Date :=
  match v with
  | Undefined => mkDate NaN
  | Null => mkDate zero
  | Val (inr s) => mkDate (Date_parse s)
  | Val (inl (JDate d)) => mkDate (getTime d)
  | Val (inl x) => mkDate (TimeClip (ToNumber (Val x)))
  end.

(** [typeof v === 'string' ? parseFloat(v) : v] *)
Definition coerce_salary (v : any) : maybe scalar :=
  match v with
  | Val (inr s) => Val (JNumber (parseFloat s))
  | Val (inl x) => Val x
  | Null => Null
  | Undefined => Undefined
  end.
End DateConstructor.

Module CreateEmployeeRequestDto.
Record t : Type := mk {
  name : option string;
  email : option string;
  position : option string;
  department : option string;
  salary : maybe scalar;
  hireDate : option Date;
}.

Section Methods.
Context `{Builtins}.

Definition new (data : CreateEmployeeData.t) : t :=
  {| name := optional_call trim (CreateEmployeeData.name data);
     email := optional_call (fun s => toLowerCase (trim s)) (CreateEmployeeData.email data);
     position := optional_call trim (CreateEmployeeData.position data);
     department := optional_call trim (CreateEmployeeData.department data);
     salary := coerce_salary (CreateEmployeeData.salary data);
     hireDate := if truthy (CreateEmployeeData.hireDate data)
                 then Some (newDate (CreateEmployeeData.hireDate data))
                 else None |}.
End Methods.

Definition isValidEmail (email : option string) : bool :=
  test emailRegex (ToString email).

Definition validate (this : t) : ValidationResult :=
  let errors := [] in
  let errors :=
    if negb (truthy (name this)) then push errors "Name is required" else errors in
  let errors :=
    if negb (truthy (email this)) then push errors "Email is required"
    else if negb (isValidEmail (email this)) then push errors "Invalid email format"
    else errors in
  let errors :=
    if negb (truthy (position this)) then push errors "Position is required" else errors in
  let errors :=
    if negb (truthy (department this)) then push errors "Department is required" else errors in
  let errors :=
    if negb (truthy (salary this)) then push errors "Salary is required"
    else if isNaN (ToNumber (salary this)) || num_le (ToNumber (salary this)) zero
         then push errors "Salary must be a positive number"
    else errors in
  let errors :=
    match hireDate this with
    | None => push errors "Hire date is required"
    | Some d =>
        if isNaN (getTime d) then push errors "Invalid hire date format" else errors
    end in
  {| isValid := Nat.eqb (length errors) 0; errors := errors |}.
End CreateEmployeeRequestDto.

Module UpdateEmployeeRequestDto.
(** A field is [None] while the instance has no such own property, and
    [Some v] once the constructor assigned [v] to it; [v] itself may be
    [undefined]. *)
Record t : Type := mk {
  name : option (option string);
  email : option (option string);
  position : option (option string);
  department : option (option string);
  salary : option (maybe scalar);
  hireDate : option Date;
}.

(** Reading a property: a missing property reads as [undefined]. *)
Definition get_name (this : t) : option string := mjoin (name this).
Definition get_email (this : t) : option string := mjoin (email this).
Definition get_position (this : t) : option string := mjoin (position this).
Definition get_department (this : t) : option string := mjoin (department this).
Definition get_salary (this : t) : maybe scalar :=
  match salary this with
  | None => Undefined
  | Some v => v
  end.
Definition get_hireDate (this : t) : option Date := hireDate this.

(** [v !== undefined] *)
Definition defined {A} (v : maybe A) : bool :=
  match v with
  | Undefined => false
  | Null | Val _ => true
  end.

Section Methods.
Context `{Builtins}.

(** [if (data.f !== undefined) this.f = e] *)
Definition assign_if_defined {A B} (v : maybe A) (e : B) : option B :=
  if defined v then Some e else None.

Definition new (data : CreateEmployeeData.t) : t :=
  {| name :=
       assign_if_defined (CreateEmployeeData.name data)
         (optional_call trim (CreateEmployeeData.name data));
     email :=
       assign_if_defined (CreateEmployeeData.email data)
         (optional_call (fun s => toLowerCase (trim s)) (CreateEmployeeData.email data));
     position :=
       assign_if_defined (CreateEmployeeData.position data)
         (optional_call trim (CreateEmployeeData.position data));
     department :=
       assign_if_defined (CreateEmployeeData.department data)
         (optional_call trim (CreateEmployeeData.department data));
     salary :=
       assign_if_defined (CreateEmployeeData.salary data)
         (coerce_salary (CreateEmployeeData.salary data));
     hireDate :=
       assign_if_defined (CreateEmployeeData.hireDate data)
         (newDate (CreateEmployeeData.hireDate data)) |}.
End Methods.

Definition isValidEmail (email : option string) : bool :=
  test emailRegex (ToString email).

Definition validate (this : t) : ValidationResult :=
  let errors := [] in
  let errors :=
    if bool_decide (get_email this <> None) && truthy (get_email this)
       && negb (isValidEmail (get_email this))
    then push errors "Invalid email format" else errors in
  let errors :=
    if defined (get_salary this)
       && (isNaN (ToNumber (get_salary this)) || num_le (ToNumber (get_salary this)) zero)
    then push errors "Salary must be a positive number" else errors in
  let errors :=
    match get_hireDate this with
    | Some d =>
        if isNaN (getTime d) then push errors "Invalid hire date format" else errors
    | None => errors
    end in
  {| isValid := Nat.eqb (length errors) 0; errors := errors |}.

(** [Object.keys(this)], in the order of assignment. *)
Definition own_key {A} (k : string) (f : option A) : list string :=
  match f with
  | Some _ => [k]
  | None => []
  end.

Definition keys (this : t) : list string :=
  own_key "name" (name this) ++ own_key "email" (email this)
  ++ own_key "position" (position this) ++ own_key "department" (department this)
  ++ own_key "salary" (salary this) ++ own_key "hireDate" (hireDate this).

Definition isEmpty (this : t) : bool := Nat.eqb (length (keys this)) 0.
End UpdateEmployeeRequestDto.

(** ** The persisted entity (Prisma model [Employee]) *)

(** A [Prisma.Decimal] is represented by its exact decimal text, which is
    what [toString()] returns. *)
Record Decimal : Type := mkDecimal { Decimal_toString : string }.

Module Employee.
Record t : Type := mk {
  id : Z;
  name : string;
  email : string;
  position : string;
  department : string;
  salary : Decimal;
  hireDate : Date;
  createdAt : Date;
  updatedAt : Date;
}.
End Employee.

(** ** Response DTOs ([employee.response.dto.ts]) *)

Inductive value : Type :=
| VInt (n : Z)
| VString (s : string)
| VDate (d : Date).

(** A response object: its own properties. *)
Abbreviation object := (gmap string value).

(** [this.k = v] *)
Definition set (k : string) (v : value) (this : object) : object := <[k := v]> this.

Definition has_field (k : string) (o : object) : Prop := is_Some (o !! k).

Definition EmployeeResponseDto (employee : Employee.t) : object :=
  let this : object := ∅ in
  let this := set "name" (VString (Employee.name employee)) this in
  let this := set "email" (VString (Employee.email employee)) this in
  let this := set "position" (VString (Employee.position employee)) this in
  let this := set "department" (VString (Employee.department employee)) this in
  let this := set "salary" (VString (Decimal_toString (Employee.salary employee))) this in
  let this := set "hireDate" (VDate (Employee.hireDate employee)) this in
  let this := set "createdAt" (VDate (Employee.createdAt employee)) this in
  let this := set "updatedAt" (VDate (Employee.updatedAt employee)) this in
  this.

Definition EmployeeDetailResponseDto (employee : Employee.t) : object :=
  let this : object := ∅ in
  let this := set "id" (VInt (Employee.id employee)) this in
  let this := set "name" (VString (Employee.name employee)) this in
  let this := set "email" (VString (Employee.email employee)) this in
  let this := set "position" (VString (Employee.position employee)) this in
  let this := set "department" (VString (Employee.department employee)) this in
  let this := set "salary" (VString (Decimal_toString (Employee.salary employee))) this in
  let this := set "hireDate" (VDate (Employee.hireDate employee)) this in
  let this := set "createdAt" (VDate (Employee.createdAt employee)) this in
  let this := set "updatedAt" (VDate (Employee.updatedAt employee)) this in
  this.

Definition EmployeeListResponseDto (employee : Employee.t) : object :=
  let this : object := ∅ in
  let this := set "id" (VInt (Employee.id employee)) this in
  let this := set "name" (VString (Employee.name employee)) this in
  let this := set "email" (VString (Employee.email employee)) this in
  let this := set "position" (VString (Employee.position employee)) this in
  let this := set "department" (VString (Employee.department employee)) this in
  this.

(** ** Mapper ([employee.mapper.ts]) *)

Module EmployeeMapper.
(** An argument typed [Employee[]]: an array, whose elements may be
    [null], or something that is not an array. *)
Inductive employees : Type :=
| NotAnArray
| Array (l : list (option Employee.t)).

Definition toResponseDto (employee : option Employee.t) : option object :=
  match employee with
  | None => None
  | Some e => Some (EmployeeResponseDto e)
  end.

Definition toDetailResponseDto (employee : option Employee.t) : option object :=
  match employee with
  | None => None
  | Some e => Some (EmployeeDetailResponseDto e)
  end.

Definition toListResponseDto (employee : option Employee.t) : option object :=
  match employee with
  | None => None
  | Some e => Some (EmployeeListResponseDto e)
  end.

(** [xs.map(f).filter(dto => dto !== null)] *)
Definition map_filter_null (f : option Employee.t -> option object)
    (l : list (option Employee.t)) : list object :=
  omap id (List.map f l).

Definition toResponseDtoArray (es : employees) : list object :=
  match es with
  | NotAnArray => []
  | Array l => map_filter_null toResponseDto l
  end.

Definition toDetailResponseDtoArray (es : employees) : list object :=
  match es with
  | NotAnArray => []
  | Array l => map_filter_null toDetailResponseDto l
  end.

Definition toListResponseDtoArray (es : employees) : list object :=
  match es with
  | NotAnArray => []
  | Array l => map_filter_null toListResponseDto l
  end.
End EmployeeMapper.


(** ** Asynchronous code over the Prisma client *)

(** What a [throw] or a rejected promise carries: an [Error] with its
    message, or some other value. *)
Inductive Thrown : Type :=
| Error (message : string)
| NotAnError.

(** A settled promise. *)
Inductive Settled (A : Type) : Type :=
| Fulfilled (a : A)
| Rejected (e : Thrown).
Arguments Fulfilled {A} a.
Arguments Rejected {A} e.

Module Prisma.
Record EmployeeCreateInput : Type := mkCreate {
  name : option string;
  email : option string;
  position : option string;
  department : option string;
  salary : maybe scalar;
  hireDate : option Date;
}.

(** An update payload: a key is [None] when the payload has no such key. *)
Record EmployeeUpdateInput : Type := mkUpdate {
  set_name : option string;
  set_email : option string;
  set_position : option string;
  set_department : option string;
  set_salary : option (maybe scalar);
  set_hireDate : option Date;
}.

Definition no_fields : EmployeeUpdateInput := mkUpdate None None None None None None.

Inductive UniqueWhere : Type :=
| WhereId (id : number)
| WhereEmail (email : option string).

(** The calls on [prisma.employee], indexed by what they resolve to. *)
Inductive Call : Type -> Type :=
| findMany (department : option string) : Call (list Employee.t)
| findUnique (w : UniqueWhere) : Call (option Employee.t)
| create (data : EmployeeCreateInput) : Call Employee.t
| update (id : number) (data : EmployeeUpdateInput) : Call Employee.t
| delete (id : number) : Call Employee.t.

(** One awaited call together with the way its promise settled. *)
Inductive Event : Type :=
| FoundMany (department : option string) (r : Settled (list Employee.t))
| FoundUnique (w : UniqueWhere) (r : Settled (option Employee.t))
| Created (data : EmployeeCreateInput) (r : Settled Employee.t)
| Updated (id : number) (data : EmployeeUpdateInput) (r : Settled Employee.t)
| Deleted (id : number) (r : Settled Employee.t).

Definition event {X} (c : Call X) : Settled X -> Event :=
  match c with
  | findMany d => FoundMany d
  | findUnique w => FoundUnique w
  | create data => Created data
  | update id data => Updated id data
  | delete id => Deleted id
  end.

(** The calls that write to the table. *)
Definition is_write (ev : Event) : bool :=
  match ev with
  | Created _ _ | Updated _ _ _ | Deleted _ _ => true
  | FoundMany _ _ | FoundUnique _ _ => false
  end.

Definition is_create (ev : Event) : bool :=
  match ev with
  | Created _ _ => true
  | _ => false
  end.

Definition is_update (ev : Event) : bool :=
  match ev with
  | Updated _ _ _ => true
  | _ => false
  end.
End Prisma.

(** The body of an [async] function: it returns, throws, or awaits a call
    and goes on with the settled promise. *)
Inductive Async (A : Type) : Type :=
| Return (a : A)
| Throw (e : Thrown)
| Await {X : Type} (c : Prisma.Call X) (k : Settled X -> Async A).
Arguments Return {A} a.
Arguments Throw {A} e.
Arguments Await {A X} c k.

Fixpoint bind {A B : Type} (p : Async A) (f : A -> Async B) : Async B :=
  match p with
  | Return a => f a
  | Throw e => Throw e
  | Await c k => Await c (fun r => bind (k r) f)
  end.

(** [await c]: a rejection is thrown at the [await]. *)
Definition await {X : Type} (c : Prisma.Call X) : Async X :=
  Await c (fun r => match r with
                    | Fulfilled x => Return x
                    | Rejected e => Throw e
                    end).

(** [try { p } catch (error) { h error }] *)
Fixpoint try_catch {A : Type} (p : Async A) (h : Thrown -> Async A) : Async A :=
  match p with
  | Return a => Return a
  | Throw e => h e
  | Await c k => Await c (fun r => try_catch (k r) h)
  end.

Declare Scope async_scope.
Delimit Scope async_scope with async.
Notation "x <- p ;; q" := (bind p (fun x => q))
  (at level 100, p at next level, right associativity) : async_scope.
Notation "p ;;; q" := (bind p (fun _ => q))
  (at level 100, right associativity) : async_scope.

(** [Exec p tr o]: [p] settles as [o] after the awaited calls [tr], for
    some answers of the database. *)
Fixpoint Exec {A : Type} (p : Async A) (tr : list Prisma.Event) (o : Settled A) : Prop :=
  match p with
  | Return a => tr = [] /\ o = Fulfilled a
  | Throw e => tr = [] /\ o = Rejected e
  | Await c k => exists r tr', tr = Prisma.event c r :: tr' /\ Exec (k r) tr' o
  end.

(** A database: it answers each call and moves to a new state. *)
Definition Client (S : Type) : Type := forall X, Prisma.Call X -> S -> Settled X * S.

(** Running [p] against a database. *)
Fixpoint run {S A : Type} (db : Client S) (p : Async A) (s : S)
  : Settled A * list Prisma.Event * S :=
  match p with
  | Return a => (Fulfilled a, [], s)
  | Throw e => (Rejected e, [], s)
  | Await c k =>
      let '(r, s') := db _ c s in
      let '(o, tr, s'') := run db (k r) s' in
      (o, Prisma.event c r :: tr, s'')
  end.

(** ** Repository ([employee.repository.ts]) *)

Module EmployeeRepository.
Section Methods.
Context `{Builtins}.
Local Open Scope async_scope.

Definition findAll : Async (list Employee.t) :=
  await (Prisma.findMany None).

Definition findById (id : string) : Async (option Employee.t) :=
  await (Prisma.findUnique (Prisma.WhereId (parseInt id))).

Definition create (data : CreateEmployeeRequestDto.t) : Async Employee.t :=
  await (Prisma.create
    {| Prisma.name := CreateEmployeeRequestDto.name data;
       Prisma.email := CreateEmployeeRequestDto.email data;
       Prisma.position := CreateEmployeeRequestDto.position data;
       Prisma.department := CreateEmployeeRequestDto.department data;
       Prisma.salary := CreateEmployeeRequestDto.salary data;
       Prisma.hireDate := CreateEmployeeRequestDto.hireDate data |}).

(** [if (v !== undefined) updateData.k = v] for a value that may be [null]. *)
Definition set_if_defined {A} (v : maybe A) : option (maybe A) :=
  if UpdateEmployeeRequestDto.defined v then Some v else None.

Definition updateData (data : UpdateEmployeeRequestDto.t) : Prisma.EmployeeUpdateInput :=
  {| Prisma.set_name := UpdateEmployeeRequestDto.get_name data;
     Prisma.set_email := UpdateEmployeeRequestDto.get_email data;
     Prisma.set_position := UpdateEmployeeRequestDto.get_position data;
     Prisma.set_department := UpdateEmployeeRequestDto.get_department data;
     Prisma.set_salary := set_if_defined (UpdateEmployeeRequestDto.get_salary data);
     Prisma.set_hireDate := UpdateEmployeeRequestDto.get_hireDate data |}.

Definition update (id : string) (data : UpdateEmployeeRequestDto.t) : Async Employee.t :=
  await (Prisma.update (parseInt id) (updateData data)).

Definition delete (id : string) : Async Employee.t :=
  await (Prisma.delete (parseInt id)).

Definition findByEmail (email : option string) : Async (option Employee.t) :=
  await (Prisma.findUnique (Prisma.WhereEmail email)).

Definition findByDepartment (department : string) : Async (list Employee.t) :=
  await (Prisma.findMany (Some department)).
End Methods.
End EmployeeRepository.

(** ** Service ([employee.service.ts]) *)

(** [errors.join(', ')] *)
Fixpoint join (sep : string) (l : list string) : string :=
  match l with
  | [] => ""
  | [s] => s
  | s :: l' => s +:+ sep +:+ join sep l'
  end.

Module EmployeeService.
Section Methods.
Context `{Builtins}.
Local Open Scope async_scope.

Definition getAllEmployees : Async (list Employee.t) :=
  EmployeeRepository.findAll.

Definition getEmployeeById (id : string) : Async Employee.t :=
  employee <- EmployeeRepository.findById id ;;
  match employee with
  | None => Throw (Error "Employee not found")
  | Some e => Return e
  end.

Definition createEmployee (data : CreateEmployeeData.t) : Async Employee.t :=
  let requestDto := CreateEmployeeRequestDto.new data in
  let validation := CreateEmployeeRequestDto.validate requestDto in
  if negb (isValid validation) then Throw (Error (join ", " (errors validation)))
  else
    existingEmployee <- EmployeeRepository.findByEmail (CreateEmployeeRequestDto.email requestDto) ;;
    match existingEmployee with
    | Some _ => Throw (Error "Employee with this email already exists")
    | None => EmployeeRepository.create requestDto
    end.

Definition updateEmployee (id : string) (data : CreateEmployeeData.t) : Async Employee.t :=
  employee <- EmployeeRepository.findById id ;;
  match employee with
  | None => Throw (Error "Employee not found")
  | Some employee =>
      let requestDto := UpdateEmployeeRequestDto.new data in
      let validation := UpdateEmployeeRequestDto.validate requestDto in
      if negb (isValid validation) then Throw (Error (join ", " (errors validation)))
      else if UpdateEmployeeRequestDto.isEmpty requestDto then Throw (Error "No fields to update")
      else
        (if truthy (UpdateEmployeeRequestDto.get_email requestDto)
            && bool_decide (UpdateEmployeeRequestDto.get_email requestDto
                            <> Some (Employee.email employee))
         then
           existingEmployee <-
             EmployeeRepository.findByEmail (UpdateEmployeeRequestDto.get_email requestDto) ;;
           match existingEmployee with
           | Some _ => Throw (Error "Employee with this email already exists")
           | None => Return tt
           end
         else Return tt) ;;;
        EmployeeRepository.update id requestDto
  end.

Definition deleteEmployee (id : string) : Async Employee.t :=
  employee <- EmployeeRepository.findById id ;;
  match employee with
  | None => Throw (Error "Employee not found")
  | Some _ => EmployeeRepository.delete id
  end.

Definition getEmployeesByDepartment (department : option string) : Async (list Employee.t) :=
  match department with
  | Some d => if truthy d then EmployeeRepository.findByDepartment d
              else Throw (Error "Department is required")
  | None => Throw (Error "Department is required")
  end.
End Methods.
End EmployeeService.


(** ** Controller ([employee.controller.ts]) *)

(** The JSON envelope [{success, data?, error?, message?}]. *)
Inductive Payload : Type :=
| Single (dto : option object)
| Many (dtos : list object).

Record ApiResponse : Type := mkApiResponse {
  success : bool;
  data : option Payload;
  error : option string;
  message : option string;
}.

(** [res.status(code).json(body)] *)
Record HttpResponse : Type := mkHttpResponse {
  status : Z;
  body : ApiResponse;
}.

(** [error instanceof Error ? error.message : 'Unknown error'] *)
Definition error_message (error : Thrown) : string :=
  match error with
  | Error m => m
  | NotAnError => "Unknown error"
  end.

Definition ok (code : Z) (p : Payload) : HttpResponse :=
  {| status := code;
     body := {| success := true; data := Some p; error := None; message := None |} |}.

Definition failed (code : Z) (msg : string) : HttpResponse :=
  {| status := code;
     body := {| success := false; data := None; error := Some msg; message := None |} |}.

(** [s.includes(sub)] *)
Fixpoint includes (s sub : string) : bool :=
  if String.prefix sub s then true
  else match s with
       | EmptyString => false
       | String _ s' => includes s' sub
       end.

(** The message of the TypeError that [id.toString()] throws in Node when
    [id] is [undefined]. *)
Definition undefined_toString : string :=
  "Cannot read properties of undefined (reading 'toString')".

(** A path parameter as Express hands it over: a string or an array of
    strings. *)
Inductive Param : Type :=
| Text (s : string)
| Texts (l : list string).

(** [Array.isArray(p) ? p[0] : p], on a parameter that may be missing. *)
Definition first_value (p : option Param) : option string :=
  match p with
  | None => None
  | Some (Text s) => Some s
  | Some (Texts l) => head l
  end.

(** [{success: true, message}] *)
Definition done_with (code : Z) (msg : string) : HttpResponse :=
  {| status := code;
     body := {| success := true; data := None; error := None; message := Some msg |} |}.

Module EmployeeController.
Section Methods.
Context `{Builtins}.
Local Open Scope async_scope.

Definition getAllEmployees : Async HttpResponse :=
  try_catch
    (employees <- EmployeeService.getAllEmployees ;;
     let employeeDtos :=
       EmployeeMapper.toResponseDtoArray (EmployeeMapper.Array (List.map Some employees)) in
     Return (ok 200%Z (Many employeeDtos)))
    (fun error => Return (failed 500%Z (error_message error))).

Definition getEmployeesByDepartment (department : option string) : Async HttpResponse :=
  try_catch
    (employees <- EmployeeService.getEmployeesByDepartment department ;;
     let employeeDtos :=
       EmployeeMapper.toListResponseDtoArray (EmployeeMapper.Array (List.map Some employees)) in
     Return (ok 200%Z (Many employeeDtos)))
    (fun error =>
       let errorMessage := error_message error in
       let statusCode : Z :=
         if String.eqb errorMessage "Department is required" then 400%Z else 500%Z in
       Return (failed statusCode errorMessage)).
(** The service is called with [id!]; when [id] is [undefined] the first
    use of it, [id.toString()] in the repository, throws before any call
    is made. *)
Definition with_id {A : Type} (id : option string) (k : string -> Async A) : Async A :=
  match id with
  | Some s => k s
  | None => Throw (Error undefined_toString)
  end.

Definition getEmployeeById (id : option string) : Async HttpResponse :=
  try_catch
    (employee <- with_id id EmployeeService.getEmployeeById ;;
     let employeeDto := EmployeeMapper.toDetailResponseDto (Some employee) in
     Return (ok 200%Z (Single employeeDto)))
    (fun error =>
       let statusCode : Z :=
         match error with
         | Error m => if String.eqb m "Employee not found" then 404%Z else 500%Z
         | NotAnError => 500%Z
         end in
       Return (failed statusCode (error_message error))).

Definition createEmployee (body : CreateEmployeeData.t) : Async HttpResponse :=
  try_catch
    (employee <- EmployeeService.createEmployee body ;;
     let employeeDto := EmployeeMapper.toDetailResponseDto (Some employee) in
     Return (ok 201%Z (Single employeeDto)))
    (fun error =>
       let errorMessage := error_message error in
       let statusCode : Z :=
         if includes errorMessage "required"
            || includes errorMessage "exists"
            || includes errorMessage "Invalid"
            || includes errorMessage "must be"
         then 400%Z else 500%Z in
       Return (failed statusCode errorMessage)).

Definition updateEmployee (id : option string) (body : CreateEmployeeData.t)
  : Async HttpResponse :=
  try_catch
    (employee <- with_id id (fun id => EmployeeService.updateEmployee id body) ;;
     let employeeDto := EmployeeMapper.toDetailResponseDto (Some employee) in
     Return (ok 200%Z (Single employeeDto)))
    (fun error =>
       let errorMessage := error_message error in
       let statusCode : Z :=
         if String.eqb errorMessage "Employee not found" then 404%Z
         else if includes errorMessage "exists"
                 || includes errorMessage "Invalid"
                 || includes errorMessage "must be"
                 || includes errorMessage "No fields"
         then 400%Z else 500%Z in
       Return (failed statusCode errorMessage)).

Definition deleteEmployee (id : option string) : Async HttpResponse :=
  try_catch
    (with_id id EmployeeService.deleteEmployee ;;;
     Return (done_with 200%Z "Employee deleted successfully"))
    (fun error =>
       let errorMessage := error_message error in
       let statusCode : Z :=
         if String.eqb errorMessage "Employee not found" then 404%Z else 500%Z in
       Return (failed statusCode errorMessage)).
End Methods.
End EmployeeController.

(** ** A reference engine

    One engine to run the examples on: [parseFloat] and [parseInt] on
    decimal numerals, [Date.parse] on the date-only form [YYYY-MM-DD]. *)

Module Engine.
Local Open Scope Z_scope.

Definition digit (c : ascii) : option Z :=
  if N.leb 48 (code c) && N.leb (code c) 57 then Some (Z.of_N (code c) - 48) else None.

(** The longest prefix of decimal digits: its value, its length, the rest. *)
Fixpoint read_digits (s : string) (acc : Z) (n : Z) : Z * Z * string :=
  match s with
  | EmptyString => (acc, n, s)
  | String c s' =>
      match digit c with
      | Some d => read_digits s' (10 * acc + d) (n + 1)
      | None => (acc, n, s)
      end
  end.

Definition read_sign (s : string) : bool * string :=
  match s with
  | String "-" s' => (true, s')
  | String "+" s' => (false, s')
  | _ => (false, s)
  end.

(** The binary64 value nearest to [m * 10^e10], for [0 < m]. *)
Definition round_decimal (m e10 : Z) : number :=
  if Z.leb 0 e10 then number_of_Z (m * 10 ^ e10)
  else
    let d := 10 ^ (- e10) in
    let s := Z.max 0 (64 + Z.log2 d - Z.log2 m) in
    let q := (m * 2 ^ s) / d in
    let sticky := if Z.eqb ((m * 2 ^ s) mod d) 0 then 0 else 1 in
    number_of_scaled (2 * q + sticky) (- (s + 1)).

Definition signed (neg : bool) (x : number) : number := if neg then SFopp x else x.

Definition parseInt (text : string) : number :=
  let '(neg, s) := read_sign (trimStart text) in
  let '(m, n, _) := read_digits s 0 0 in
  if Z.eqb n 0 then NaN
  else if Z.eqb m 0 then S754_zero neg
  else signed neg (number_of_Z m).

Definition read_exponent (s : string) : Z :=
  match s with
  | String c s' =>
      if Ascii.eqb c "e" || Ascii.eqb c "E" then
        let '(neg, s'') := read_sign s' in
        let '(e, n, _) := read_digits s'' 0 0 in
        if Z.eqb n 0 then 0 else if neg then - e else e
      else 0
  | EmptyString => 0
  end.

Definition parseFloat (text : string) : number :=
  let '(neg, s) := read_sign (trimStart text) in
  if String.prefix "Infinity" s then S754_infinity neg
  else
    let '(int, ni, s1) := read_digits s 0 0 in
    let '(m, nf, s2) :=
      match s1 with
      | String "." s1' =>
          let '(m, n, s2) := read_digits s1' int 0 in (m, n, s2)
      | _ => (int, 0, s1)
      end in
    if Z.eqb (ni + nf) 0 then NaN
    else if Z.eqb m 0 then S754_zero neg
    else signed neg (round_decimal m (read_exponent s2 - nf)).

Definition days_in_month (y m : Z) : Z :=
  if Z.eqb m 2 then
    (if (Z.eqb (y mod 4) 0 && negb (Z.eqb (y mod 100) 0)) || Z.eqb (y mod 400) 0
     then 29 else 28)
  else if Z.eqb m 4 || Z.eqb m 6 || Z.eqb m 9 || Z.eqb m 11 then 30
  else 31.

(** Days from 1970-01-01 to the civil date [y-m-d]. *)
Definition days_from_civil (y m d : Z) : Z :=
  let y' := if Z.leb m 2 then y - 1 else y in
  let era := y' / 400 in
  let yoe := y' - era * 400 in
  let doy := (153 * (if Z.ltb 2 m then m - 3 else m + 9) + 2) / 5 + d - 1 in
  let doe := yoe * 365 + yoe / 4 - yoe / 100 + doy in
  era * 146097 + doe - 719468.

Definition Date_parse (text : string) : number :=
  let '(y, ny, s1) := read_digits text 0 0 in
  match s1 with
  | String "-" s1' =>
      let '(m, nm, s2) := read_digits s1' 0 0 in
      match s2 with
      | String "-" s2' =>
          let '(d, nd, s3) := read_digits s2' 0 0 in
          if Z.eqb ny 4 && Z.eqb nm 2 && Z.eqb nd 2 && String.eqb s3 ""
             && Z.leb 1 m && Z.leb m 12 && Z.leb 1 d && Z.leb d (days_in_month y m)
          then
            let ms := days_from_civil y m d * 86400000 in
            if Z.eqb ms 0 then zero else number_of_Z ms
          else NaN
      | _ => NaN
      end
  | _ => NaN
  end.

#[global] Instance builtins : Builtins := Build_Builtins parseFloat parseInt Date_parse.
End Engine.

(** ** Reference data for the examples *)

Module Sample.
Definition date (ms : Z) : Date := mkDate (number_of_Z ms).

Definition alice : Employee.t :=
  {| Employee.id := 1;
     Employee.name := "Alice Roe";
     Employee.email := "alice@ex.com";
     Employee.position := "Engineer";
     Employee.department := "Eng";
     Employee.salary := mkDecimal "75000";
     Employee.hireDate := date 1705276800000;
     Employee.createdAt := date 1705300000000;
     Employee.updatedAt := date 1705300000000 |}.

Definition bob : Employee.t :=
  {| Employee.id := 2;
     Employee.name := "Bob Poe";
     Employee.email := "bob@ex.com";
     Employee.position := "Analyst";
     Employee.department := "Ops";
     Employee.salary := mkDecimal "61000.5";
     Employee.hireDate := date 1705276800000;
     Employee.createdAt := date 1705200000000;
     Employee.updatedAt := date 1705200000000 |}.

(** The create body of the specification's example scenario. *)
Definition john (salary : any) : CreateEmployeeData.t :=
  {| CreateEmployeeData.name := Val "John Doe";
     CreateEmployeeData.email := Val " John@Ex.com ";
     CreateEmployeeData.position := Val "Engineer";
     CreateEmployeeData.department := Val "Eng";
     CreateEmployeeData.salary := salary;
     CreateEmployeeData.hireDate := Val (inr "2024-01-15") |}.

(** A table that only serves reads: rows newest first, writes rejected. *)
Definition same_id (x : number) (e : Employee.t) : bool :=
  SFeqb x (number_of_Z (Employee.id e)).

Definition read_only_table : Client (list Employee.t) :=
  fun X c rows =>
    match c in Prisma.Call X return Settled X * list Employee.t with
    | Prisma.findMany None => (Fulfilled rows, rows)
    | Prisma.findMany (Some d) =>
        (Fulfilled (List.filter (fun e => String.eqb (Employee.department e) d) rows), rows)
    | Prisma.findUnique (Prisma.WhereId x) => (Fulfilled (List.find (same_id x) rows), rows)
    | Prisma.findUnique (Prisma.WhereEmail (Some a)) =>
        (Fulfilled (List.find (fun e => String.eqb (Employee.email e) a) rows), rows)
    | Prisma.findUnique (Prisma.WhereEmail None) =>
        (Rejected (Error "Argument `where` needs at least one argument"), rows)
    | Prisma.create _ | Prisma.update _ _ | Prisma.delete _ =>
        (Rejected (Error "cannot execute in a read-only transaction"), rows)
    end.
End Sample.

(** ** What [validate] is expected to report

    The checks of the create DTO, field by field, in the order of the
    specification: each one names the condition under which its message
    applies. *)
Definition create_checks (this : CreateEmployeeRequestDto.t) : list (bool * string) :=
  let salary := CreateEmployeeRequestDto.salary this in
  [ (negb (truthy (CreateEmployeeRequestDto.name this)), "Name is required");
    (negb (truthy (CreateEmployeeRequestDto.email this)), "Email is required");
    (truthy (CreateEmployeeRequestDto.email this)
     && negb (CreateEmployeeRequestDto.isValidEmail (CreateEmployeeRequestDto.email this)),
     "Invalid email format");
    (negb (truthy (CreateEmployeeRequestDto.position this)), "Position is required");
    (negb (truthy (CreateEmployeeRequestDto.department this)), "Department is required");
    (negb (truthy salary), "Salary is required");
    (truthy salary && (isNaN (ToNumber salary) || num_le (ToNumber salary) zero),
     "Salary must be a positive number");
    (negb (truthy (CreateEmployeeRequestDto.hireDate this)), "Hire date is required");
    (match CreateEmployeeRequestDto.hireDate this with
     | Some d => isNaN (getTime d)
     | None => false
     end, "Invalid hire date format") ].

(** Every message whose check applies, in that order. *)
Definition applicable_errors (this : CreateEmployeeRequestDto.t) : list string :=
  List.map snd (List.filter fst (create_checks this)).

(** The create body with another salary. *)
Definition with_salary (data : CreateEmployeeData.t) (v : any)
  : CreateEmployeeData.t :=
  {| CreateEmployeeData.name := CreateEmployeeData.name data;
     CreateEmployeeData.email := CreateEmployeeData.email data;
     CreateEmployeeData.position := CreateEmployeeData.position data;
     CreateEmployeeData.department := CreateEmployeeData.department data;
     CreateEmployeeData.salary := v;
     CreateEmployeeData.hireDate := CreateEmployeeData.hireDate data |}.

(** The body with another email. *)
Definition with_email (data : CreateEmployeeData.t) (v : maybe string) : CreateEmployeeData.t :=
  {| CreateEmployeeData.name := CreateEmployeeData.name data;
     CreateEmployeeData.email := v;
     CreateEmployeeData.position := CreateEmployeeData.position data;
     CreateEmployeeData.department := CreateEmployeeData.department data;
     CreateEmployeeData.salary := CreateEmployeeData.salary data;
     CreateEmployeeData.hireDate := CreateEmployeeData.hireDate data |}.

(** The body [{k: null}], for a recognized key [k]. *)
Definition null_field (k : string) : CreateEmployeeData.t :=
  let at_key {A} (k' : string) : maybe A := if String.eqb k k' then Null else Undefined in
  {| CreateEmployeeData.name := at_key "name";
     CreateEmployeeData.email := at_key "email";
     CreateEmployeeData.position := at_key "position";
     CreateEmployeeData.department := at_key "department";
     CreateEmployeeData.salary := at_key "salary";
     CreateEmployeeData.hireDate := at_key "hireDate" |}.

(** What an element of the public projection says about its employee. *)
Definition public_view (e : Employee.t) (o : object) : Prop :=
  ~ has_field "id" o
  /\ o !! "name" = Some (VString (Employee.name e))
  /\ o !! "email" = Some (VString (Employee.email e))
  /\ o !! "position" = Some (VString (Employee.position e))
  /\ o !! "department" = Some (VString (Employee.department e)).

(** ** Reading a trace *)

Section Traces.
Context `{Builtins}.

(** [findById id] resolved to [employee]: the id exists. *)
Definition found_by_id (id : string) (employee : Employee.t) : Prisma.Event :=
  Prisma.FoundUnique (Prisma.WhereId (parseInt id)) (Fulfilled (Some employee)).

(** [findByEmail email] settled as [r]. *)
Definition looked_up_email (email : option string) (r : Settled (option Employee.t))
  : Prisma.Event :=
  Prisma.FoundUnique (Prisma.WhereEmail email) r.

(** [repository.update id dto] settled as [r]. *)
Definition updated (id : string) (dto : UpdateEmployeeRequestDto.t) (r : Settled Employee.t)
  : Prisma.Event :=
  Prisma.Updated (parseInt id) (EmployeeRepository.updateData dto) r.

(** [repository.create dto] settled as [r]; [created_record] is the record
    handed to the Prisma client. *)
Definition created_record (dto : CreateEmployeeRequestDto.t) : Prisma.EmployeeCreateInput :=
  {| Prisma.name := CreateEmployeeRequestDto.name dto;
     Prisma.email := CreateEmployeeRequestDto.email dto;
     Prisma.position := CreateEmployeeRequestDto.position dto;
     Prisma.department := CreateEmployeeRequestDto.department dto;
     Prisma.salary := CreateEmployeeRequestDto.salary dto;
     Prisma.hireDate := CreateEmployeeRequestDto.hireDate dto |}.

(** The test that guards the uniqueness check of [updateEmployee]:
    [requestDto.email && requestDto.email !== employee.email]. *)
Definition changes_email (dto : UpdateEmployeeRequestDto.t) (employee : Employee.t) : bool :=
  truthy (UpdateEmployeeRequestDto.get_email dto)
  && bool_decide (UpdateEmployeeRequestDto.get_email dto <> Some (Employee.email employee)).
End Traces.

Definition conflict : Thrown := Error "Employee with this email already exists".

(** ** Request bodies and rows of the examples *)

Module Scenario.
(** [PUT /employees/1 {email: " Bob@Ex.com "}]: the email of another row. *)
Definition take_bobs_email : CreateEmployeeData.t :=
  with_email CreateEmployeeData.empty (Val " Bob@Ex.com ").

(** [PUT /employees/1 {email: "Alice@Ex.com"}]: the row's own email. *)
Definition keep_own_email : CreateEmployeeData.t :=
  with_email CreateEmployeeData.empty (Val "Alice@Ex.com").

(** [{email: "Alice@Ex.com", salary: -1}] *)
Definition own_email_bad_salary : CreateEmployeeData.t :=
  with_salary keep_own_email (Val (inl (JNumber (number_of_Z (-1))))).

(** [{email: "   "}] *)
Definition blank_email : CreateEmployeeData.t :=
  with_email CreateEmployeeData.empty (Val "   ").

(** [{email: "   ", salary: -1}] *)
Definition blank_email_bad_salary : CreateEmployeeData.t :=
  with_salary blank_email (Val (inl (JNumber (number_of_Z (-1))))).

(** The create body of the example scenario, [salary: 75000]. *)
Definition john : CreateEmployeeData.t := Sample.john (Val (inl (JNumber (number_of_Z 75000)))).


(** The row the database returns for it. *)
Definition john_row : Employee.t :=
  {| Employee.id := 3;
     Employee.name := "John Doe";
     Employee.email := "john@ex.com";
     Employee.position := "Engineer";
     Employee.department := "Eng";
     Employee.salary := mkDecimal "75000";
     Employee.hireDate := Sample.date 1705276800000;
     Employee.createdAt := Sample.date 1705400000000;
     Employee.updatedAt := Sample.date 1705400000000 |}.

(** Alice's row once its email is blank. *)
Definition alice_blank : Employee.t :=
  {| Employee.id := 1;
     Employee.name := "Alice Roe";
     Employee.email := "";
     Employee.position := "Engineer";
     Employee.department := "Eng";
     Employee.salary := mkDecimal "75000";
     Employee.hireDate := Sample.date 1705276800000;
     Employee.createdAt := Sample.date 1705300000000;
     Employee.updatedAt := Sample.date 1705500000000 |}.

(** Alice's row once its hire date is the epoch. *)
Definition alice_epoch : Employee.t :=
  {| Employee.id := 1;
     Employee.name := "Alice Roe";
     Employee.email := "alice@ex.com";
     Employee.position := "Engineer";
     Employee.department := "Eng";
     Employee.salary := mkDecimal "75000";
     Employee.hireDate := mkDate zero;
     Employee.createdAt := Sample.date 1705300000000;
     Employee.updatedAt := Sample.date 1705500000000 |}.
End Scenario.


(** ** The language of a regular expression *)

(** [Matches r s]: the whole of [s] is a word of [r]. *)
Inductive Matches : regex -> string -> Prop :=
| MEps : Matches Eps ""
| MClass (p : ascii -> bool) (c : ascii) : p c = true -> Matches (Class p) (String c "")
| MSeq (r1 r2 : regex) (s1 s2 : string) :
    Matches r1 s1 -> Matches r2 s2 -> Matches (Seq r1 r2) (s1 +:+ s2)
| MAltL (r1 r2 : regex) (s : string) : Matches r1 s -> Matches (Alt r1 r2) s
| MAltR (r1 r2 : regex) (s : string) : Matches r2 s -> Matches (Alt r1 r2) s
| MStarNil (r : regex) : Matches (Star r) ""
| MStarApp (r : regex) (s1 s2 : string) :
    Matches r s1 -> Matches (Star r) s2 -> Matches (Star r) (s1 +:+ s2).

(** Every character of [s] satisfies [p]. *)
Fixpoint all_chars (p : ascii -> bool) (s : string) : bool :=
  match s with
  | EmptyString => true
  | String c s' => p c && all_chars p s'
  end.

(** A non-empty run of characters that are neither white space nor [@]. *)
Definition token (s : string) : Prop := s <> "" /\ all_chars not_space_at s = true.

(** The shape [token@token.token] of an address. *)
Definition address_shape (s : string) : Prop :=
  exists a b c, s = a +:+ "@" +:+ b +:+ "." +:+ c /\ token a /\ token b /\ token c.

(** Number of occurrences of a character. *)
Fixpoint count_char (x : ascii) (s : string) : nat :=
  match s with
  | EmptyString => 0
  | String c s' => (if Ascii.eqb c x then 1 else 0) + count_char x s'
  end.

(** ** What the update DTO is expected to report *)

Definition update_checks (this : UpdateEmployeeRequestDto.t) : list (bool * string) :=
  let email := UpdateEmployeeRequestDto.get_email this in
  let salary := UpdateEmployeeRequestDto.get_salary this in
  [ (bool_decide (email <> None) && truthy email
     && negb (UpdateEmployeeRequestDto.isValidEmail email), "Invalid email format");
    (UpdateEmployeeRequestDto.defined salary
     && (isNaN (ToNumber salary) || num_le (ToNumber salary) zero),
     "Salary must be a positive number");
    (match UpdateEmployeeRequestDto.get_hireDate this with
     | Some d => isNaN (getTime d)
     | None => false
     end, "Invalid hire date format") ].

(** The status classes of the controller. *)
Definition client_error_create (msg : string) : bool :=
  includes msg "required" || includes msg "exists"
  || includes msg "Invalid" || includes msg "must be".

Definition client_error_update (msg : string) : bool :=
  includes msg "exists" || includes msg "Invalid"
  || includes msg "must be" || includes msg "No fields".

(** The non-null elements of an array, in order. *)
Definition non_null {A : Type} (l : list (option A)) : list A := omap id l.

(** The calls of a trace that write to the table. *)
Definition writes (tr : list Prisma.Event) : list Prisma.Event :=
  List.filter Prisma.is_write tr.



(** A text field that carries nothing: [undefined], [null], or a string
    of white space only (the empty string included). *)
Definition missing_text (v : maybe string) : Prop :=
  match v with
  | Val s => all_chars is_white_space s = true
  | Undefined | Null => True
  end.

(** The update payload, read off the request body field by field. *)
Definition payload_of_body `{Builtins} (data : CreateEmployeeData.t) : Prisma.EmployeeUpdateInput :=
  {| Prisma.set_name := optional_call trim (CreateEmployeeData.name data);
     Prisma.set_email :=
       optional_call (fun s => toLowerCase (trim s)) (CreateEmployeeData.email data);
     Prisma.set_position := optional_call trim (CreateEmployeeData.position data);
     Prisma.set_department := optional_call trim (CreateEmployeeData.department data);
     Prisma.set_salary :=
       match CreateEmployeeData.salary data with
       | Undefined => None
       | Null => Some Null
       | Val (inl x) => Some (Val x)
       | Val (inr text) => Some (Val (JNumber (parseFloat text)))
       end;
     Prisma.set_hireDate :=
       match CreateEmployeeData.hireDate data with
       | Undefined => None
       | Null => Some (mkDate zero)
       | Val (inr text) => Some (mkDate (Date_parse text))
       | Val (inl (JDate d)) => Some d
       | Val (inl (JNumber x)) => Some (mkDate (TimeClip x))
       | Val (inl (JBoolean b)) => Some (mkDate (if b then number_of_Z 1 else zero))
       end |}.


(** A call whose promise was rejected. *)
Definition rejected_call (ev : Prisma.Event) : bool :=
  match ev with
  | Prisma.FoundMany _ (Rejected _) | Prisma.FoundUnique _ (Rejected _)
  | Prisma.Created _ (Rejected _) | Prisma.Updated _ _ (Rejected _)
  | Prisma.Deleted _ (Rejected _) => true
  | _ => false
  end.

(** The failure of a call whose promise was rejected. *)
Definition rejection (ev : Prisma.Event) : option Thrown :=
  match ev with
  | Prisma.FoundMany _ (Rejected e) | Prisma.FoundUnique _ (Rejected e)
  | Prisma.Created _ (Rejected e) | Prisma.Updated _ _ (Rejected e)
  | Prisma.Deleted _ (Rejected e) => Some e
  | _ => None
  end.

(** The envelope of an answer is coherent with its status. *)
Definition coherent (resp : HttpResponse) : Prop :=
  In (status resp) [200; 201; 400; 404; 500]%Z
  /\ (success (body resp) = true <-> In (status resp) [200; 201]%Z)
  /\ (success (body resp) = true -> error (body resp) = None)
  /\ (success (body resp) = false ->
      data (body resp) = None /\ message (body resp) = None
      /\ exists msg, error (body resp) = Some msg).

(** What an element of the list projection says about its employee. *)
Definition list_view (e : Employee.t) (o : object) : Prop :=
  o !! "id" = Some (VInt (Employee.id e))
  /\ o !! "name" = Some (VString (Employee.name e))
  /\ o !! "email" = Some (VString (Employee.email e))
  /\ o !! "position" = Some (VString (Employee.position e))
  /\ o !! "department" = Some (VString (Employee.department e))
  /\ ~ has_field "salary" o.


(** * Properties *)

(** ** The async model *)

(** Every program settles against every database, and the run is an
    execution in the sense of [Exec]. *)
Lemma run_Exec {S A : Type} (db : Client S) (p : Async A) (s : S) :
  Exec p (run db p s).1.2 (run db p s).1.1.
Proof.
  revert s. induction p as [a | e | X c k IH]; intros s; simpl.
  - done.
  - done.
  - destruct (db X c s) as [r s'] eqn:Hdb.
    specialize (IH r s'). destruct (run db (k r) s') as [[o tr] s''].
    exists r, tr. done.
Qed.

Lemma Exec_bind {A B : Type} (p : Async A) (f : A -> Async B) tr o :
  Exec (bind p f) tr o <->
  (exists e, Exec p tr (Rejected e) /\ o = Rejected e)
  \/ (exists a tr1 tr2, Exec p tr1 (Fulfilled a) /\ Exec (f a) tr2 o /\ tr = tr1 ++ tr2).
Proof.
  revert tr. induction p as [a | e | X c k IH]; intros tr; simpl.
  - split.
    + intros Hf. right. exists a, [], tr. done.
    + intros [(e & [_ He] & _) | (a' & tr1 & tr2 & [-> Ha] & Hf & ->)]; [done |].
      by injection Ha as <-.
  - split.
    + intros [-> ->]. left. by exists e.
    + intros [(e' & [-> He] & ->) | (a' & tr1 & tr2 & [_ Ha] & _)]; [| done].
      by injection He as <-.
  - split.
    + intros (r & tr' & -> & Hk). apply IH in Hk as [(e & Hk & ->) | (a & tr1 & tr2 & Hk & Hf & ->)].
      * left. exists e. split; [|done]. by exists r, tr'.
      * right. exists a, (Prisma.event c r :: tr1), tr2. split; [|done]. by exists r, tr1.
    + intros [(e & (r & tr' & -> & Hk) & ->) | (a & tr1 & tr2 & (r & tr' & -> & Hk) & Hf & ->)].
      * exists r, tr'. split; [done|]. apply IH. left. by exists e.
      * exists r, (tr' ++ tr2). split; [done|]. apply IH. right. by exists a, tr', tr2.
Qed.

(** ** Numbers *)

Lemma positive_passes_salary_checks (x : number) :
  num_lt zero x = true -> truthy x = true /\ isNaN x = false /\ num_le x zero = false.
Proof. destruct x as [s | s | | s m e]; try destruct s; done. Qed.

(** What the salary checks let through converts to a number above zero. *)
Lemma not_le_zero_positive (x : number) :
  isNaN x = false -> num_le x zero = false -> num_lt zero x = true.
Proof. destruct x as [s | s | | s m e]; try destruct s; done. Qed.

(** Only a truthy value converts to a number above zero. *)
Lemma positive_truthy (v : maybe scalar) :
  num_lt zero (ToNumber v) = true -> truthy v = true.
Proof.
  destruct v as [| | [x | b | d]]; try done.
  - intros Hpos. by apply positive_passes_salary_checks in Hpos as [Ht _].
  - by destruct b.
Qed.

(** ** Validation of a create request *)

(** A check adds its message at the end of the list when it applies. *)
Lemma push_if (c : bool) (l : list string) (m : string) :
  (if c then push l m else l) = l ++ (if c then [m] else []).
Proof. destruct c; [done | by rewrite app_nil_r]. Qed.

(** A field with two checks: the second one is made only when the first
    does not apply. *)
Lemma push_if_else (c1 c2 : bool) (l : list string) (m1 m2 : string) :
  (if negb c1 then push l m1 else if c2 then push l m2 else l)
  = (l ++ (if negb c1 then [m1] else [])) ++ (if c1 && c2 then [m2] else []).
Proof. destruct c1, c2; cbn; unfold push; by rewrite ?app_nil_r. Qed.

Lemma push_hireDate (h : option Date) (l : list string) (m1 m2 : string) :
  match h with
  | None => push l m1
  | Some d => if isNaN (getTime d) then push l m2 else l
  end
  = (l ++ (if negb (truthy h) then [m1] else []))
    ++ (if match h with Some d => isNaN (getTime d) | None => false end then [m2] else []).
Proof.
  destruct h as [d |]; cbn; [| by rewrite app_nil_r].
  destruct (isNaN (getTime d)); unfold push; by rewrite ?app_nil_r.
Qed.

(** The messages of a list of checks, check by check. *)
Lemma checks_cons (c : bool) (m : string) (l : list (bool * string)) :
  List.map snd (List.filter fst ((c, m) :: l))
  = (if c then [m] else []) ++ List.map snd (List.filter fst l).
Proof. by destruct c. Qed.

(** No message at all: no check applies. *)
Lemma no_message (c : bool) (m : string) (l : list string) :
  (if c then [m] else []) ++ l = [] -> c = false /\ l = [].
Proof. destruct c; [discriminate | done]. Qed.

Lemma validate_errors (this : CreateEmployeeRequestDto.t) :
  errors (CreateEmployeeRequestDto.validate this) = applicable_errors this.
Proof.
  destruct this as [n e p d s h].
  unfold CreateEmployeeRequestDto.validate, applicable_errors, create_checks.
  cbn [CreateEmployeeRequestDto.name CreateEmployeeRequestDto.email
       CreateEmployeeRequestDto.position CreateEmployeeRequestDto.department
       CreateEmployeeRequestDto.salary CreateEmployeeRequestDto.hireDate errors].
  rewrite !checks_cons. cbn [List.filter List.map].
  rewrite push_hireDate, !push_if_else, !push_if.
  rewrite app_nil_l, app_nil_r, <- !app_assoc. reflexivity.
Qed.

Lemma validate_isValid (this : CreateEmployeeRequestDto.t) :
  isValid (CreateEmployeeRequestDto.validate this) = true
  <-> errors (CreateEmployeeRequestDto.validate this) = [].
Proof.
  unfold CreateEmployeeRequestDto.validate. cbn [isValid errors].
  match goal with |- Nat.eqb (length ?l) 0 = true <-> _ => destruct l end; done.
Qed.

Lemma applicable_errors_In (this : CreateEmployeeRequestDto.t) (msg : string) :
  In msg (applicable_errors this) <-> In (true, msg) (create_checks this).
Proof.
  unfold applicable_errors. rewrite in_map_iff. split.
  - intros ([b m] & <- & Hin). apply filter_In in Hin as [Hin Hb].
    simpl in Hb. by subst b.
  - intros Hin. exists (true, msg). split; [done |]. by apply filter_In.
Qed.

(** C1. For every raw create input, [validate] reports every message
    whose check applies (none is lost to an earlier one), in the fixed
    order name, email, position, department, salary, hire date, and
    [isValid] is true exactly when the list of errors is empty. *)
Theorem validate_collects_errors_in_order `{Builtins} (data : CreateEmployeeData.t) :
  let this := CreateEmployeeRequestDto.new data in
  let r := CreateEmployeeRequestDto.validate this in
  (forall msg, In (true, msg) (create_checks this) -> In msg (errors r))
  /\ errors r = List.map snd (List.filter fst (create_checks this))
  /\ (isValid r = true <-> errors r = []).
Proof.
  intros this r. split; [| split].
  - intros msg Hin. unfold r. rewrite validate_errors. by apply applicable_errors_In.
  - apply validate_errors.
  - apply validate_isValid.
Qed.

(** A body that names no field at all gets the six "required" messages,
    in order. *)
Example validate_empty_body :
  CreateEmployeeRequestDto.validate (CreateEmployeeRequestDto.new CreateEmployeeData.empty)
  = {| isValid := false;
       errors := ["Name is required"; "Email is required"; "Position is required";
                  "Department is required"; "Salary is required"; "Hire date is required"] |}.
Proof. reflexivity. Qed.

Example validate_john :
  CreateEmployeeRequestDto.validate
    (CreateEmployeeRequestDto.new (Sample.john (Val (inl (JNumber (number_of_Z 75000))))))
  = {| isValid := true; errors := [] |}.
Proof. vm_compute. reflexivity. Qed.

(** ** The salary check *)

(** A salary that is a number, not zero, not NaN and not above zero is
    reported as not positive, and not as missing. *)
Lemma negative_salary_rejected `{Builtins} (data : CreateEmployeeData.t) (x : number) :
  truthy x = true -> num_le x zero = true ->
  let r := CreateEmployeeRequestDto.validate
             (CreateEmployeeRequestDto.new (with_salary data (Val (inl (JNumber x))))) in
  In "Salary must be a positive number" (errors r)
  /\ ~ In "Salary is required" (errors r).
Proof.
  intros Ht Hle r. unfold r. rewrite validate_errors.
  rewrite !applicable_errors_In. unfold create_checks.
  cbn [CreateEmployeeRequestDto.new with_salary CreateEmployeeData.salary
       CreateEmployeeRequestDto.salary coerce_salary ToNumber].
  change (truthy (Val (JNumber x))) with (truthy x). rewrite Ht, Hle, orb_true_r.
  split.
  - cbn. tauto.
  - cbn. intros Hin. repeat destruct Hin as [Hin | Hin]; try discriminate Hin; done.
Qed.

(** The salary 0 (of either sign) takes the "missing" branch: the test
    [!this.salary] holds for it, so the branch that compares with 0 is
    never reached. *)
Lemma zero_salary_reported_missing `{Builtins} (data : CreateEmployeeData.t) (sign : bool) :
  let r := CreateEmployeeRequestDto.validate
             (CreateEmployeeRequestDto.new (with_salary data (Val (inl (JNumber (S754_zero sign)))))) in
  In "Salary is required" (errors r)
  /\ ~ In "Salary must be a positive number" (errors r).
Proof.
  intros r. unfold r. rewrite validate_errors.
  rewrite !applicable_errors_In. unfold create_checks.
  cbn [CreateEmployeeRequestDto.new with_salary CreateEmployeeData.salary
       CreateEmployeeRequestDto.salary coerce_salary ToNumber].
  change (truthy (Val (JNumber (S754_zero sign)))) with false.
  split.
  - cbn. tauto.
  - cbn. intros Hin. repeat destruct Hin as [Hin | Hin]; try discriminate Hin; done.
Qed.

(** C2, at the failing input: the create body of the example scenario
    with [salary: 0] is answered "Salary is required"; the message
    "Salary must be a positive number" is not produced. *)
Example create_salary_zero :
  CreateEmployeeRequestDto.validate
    (CreateEmployeeRequestDto.new (Sample.john (Val (inl (JNumber zero)))))
  = {| isValid := false; errors := ["Salary is required"] |}.
Proof. vm_compute. reflexivity. Qed.

(** The update DTO reports the same salary as not positive. *)
Example update_salary_zero :
  UpdateEmployeeRequestDto.validate
    (UpdateEmployeeRequestDto.new (with_salary CreateEmployeeData.empty (Val (inl (JNumber zero)))))
  = {| isValid := false; errors := ["Salary must be a positive number"] |}.
Proof. vm_compute. reflexivity. Qed.

(** ** Projections *)

Lemma public_dto_keys (e : Employee.t) :
  dom (EmployeeResponseDto e)
  = list_to_set ["name"; "email"; "position"; "department"; "salary";
                 "hireDate"; "createdAt"; "updatedAt"].
Proof.
  unfold EmployeeResponseDto, set. cbv zeta.
  rewrite !dom_insert_L, dom_empty_L. cbn [list_to_set]. set_solver.
Qed.

Lemma detail_dto_keys (e : Employee.t) :
  dom (EmployeeDetailResponseDto e)
  = list_to_set ["id"; "name"; "email"; "position"; "department"; "salary";
                 "hireDate"; "createdAt"; "updatedAt"].
Proof.
  unfold EmployeeDetailResponseDto, set. cbv zeta.
  rewrite !dom_insert_L, dom_empty_L. cbn [list_to_set]. set_solver.
Qed.

Lemma list_dto_keys (e : Employee.t) :
  dom (EmployeeListResponseDto e)
  = list_to_set ["id"; "name"; "email"; "position"; "department"].
Proof.
  unfold EmployeeListResponseDto, set. cbv zeta.
  rewrite !dom_insert_L, dom_empty_L. cbn [list_to_set]. set_solver.
Qed.

Lemma has_field_dom (k : string) (o : object) : has_field k o <-> k ∈ dom o.
Proof. unfold has_field. by rewrite elem_of_dom. Qed.

(** Decides whether a response DTO has a given key. *)
Ltac decide_field :=
  rewrite ?has_field_dom, ?public_dto_keys, ?detail_dto_keys, ?list_dto_keys,
    ?elem_of_list_to_set;
  by apply (bool_decide_unpack _).

(** C8. For every employee entity, the list projection of the mapper has
    no salary field, the public projection has no id field, and the
    full-detail projection has both an id and a salary field. *)
Theorem projections_fields (e : Employee.t) :
  exists l p d,
    EmployeeMapper.toListResponseDto (Some e) = Some l
    /\ EmployeeMapper.toResponseDto (Some e) = Some p
    /\ EmployeeMapper.toDetailResponseDto (Some e) = Some d
    /\ ~ has_field "salary" l
    /\ ~ has_field "id" p
    /\ has_field "id" d /\ has_field "salary" d.
Proof.
  exists (EmployeeListResponseDto e), (EmployeeResponseDto e), (EmployeeDetailResponseDto e).
  repeat split; try reflexivity; decide_field.
Qed.

(** The array conversions of the mapper on a list of entities. *)
Lemma map_filter_null_Some (f : Employee.t -> object) (l : list Employee.t) :
  EmployeeMapper.map_filter_null
    (fun e => match e with None => None | Some e => Some (f e) end) (List.map Some l)
  = List.map f l.
Proof.
  unfold EmployeeMapper.map_filter_null.
  induction l as [| e l IH]; [done |]. cbn. by rewrite <- IH.
Qed.

(** ** The list endpoint *)

(** The controller of [GET /employees] never throws: it always answers. *)
Lemma getAllEmployees_answers tr o :
  Exec EmployeeController.getAllEmployees tr o -> exists resp, o = Fulfilled resp.
Proof.
  intros (r & tr' & -> & Hk). destruct r as [employees | e]; destruct Hk as [_ ->]; eauto.
Qed.

Lemma public_dto_view (e : Employee.t) : public_view e (EmployeeResponseDto e).
Proof.
  split; [decide_field |].
  unfold EmployeeResponseDto, set. cbv zeta.
  repeat split; by simplify_map_eq.
Qed.

(** C3, as the code has it. On success, [getAllEmployees] maps the
    employees returned by the service with [toResponseDtoArray]: the
    emitted [data] array has one element per employee, in order, each with
    the name, email, position and department of its employee and without
    an id field. *)
Theorem getAllEmployees_public_projection tr resp :
  Exec EmployeeController.getAllEmployees tr (Fulfilled resp) ->
  success (body resp) = true ->
  exists employees dtos,
    tr = [Prisma.FoundMany None (Fulfilled employees)]
    /\ resp = ok 200 (Many dtos)
    /\ dtos = EmployeeMapper.toResponseDtoArray (EmployeeMapper.Array (List.map Some employees))
    /\ Forall2 public_view employees dtos.
Proof.
  intros (r & tr' & -> & Hk) Hok.
  destruct r as [employees | e]; destruct Hk as [-> Hresp];
    injection Hresp as ->; [| discriminate Hok].
  exists employees, (List.map EmployeeResponseDto employees).
  split; [done |].
  assert (Hmap : EmployeeMapper.toResponseDtoArray (EmployeeMapper.Array (List.map Some employees))
                 = List.map EmployeeResponseDto employees)
    by apply (map_filter_null_Some EmployeeResponseDto).
  split; [by rewrite <- Hmap |]. split; [done |].
  clear. induction employees as [| e l IH]; constructor; [apply public_dto_view | exact IH].
Qed.

Lemma getAllEmployees_public_projection_witness :
  let tr := [Prisma.FoundMany None (Fulfilled [Sample.alice; Sample.bob])] in
  let resp := ok 200 (Many [EmployeeResponseDto Sample.alice; EmployeeResponseDto Sample.bob]) in
  Exec EmployeeController.getAllEmployees tr (Fulfilled resp)
  /\ success (body resp) = true
  /\ exists employees dtos,
      tr = [Prisma.FoundMany None (Fulfilled employees)]
      /\ resp = ok 200 (Many dtos)
      /\ dtos = EmployeeMapper.toResponseDtoArray
                  (EmployeeMapper.Array (List.map Some employees))
      /\ Forall2 public_view employees dtos.
Proof.
  intros tr resp.
  assert (Hexec : Exec EmployeeController.getAllEmployees tr (Fulfilled resp)).
  { exists (Fulfilled [Sample.alice; Sample.bob]), []. split; [reflexivity |].
    split; reflexivity. }
  split; [exact Hexec |]. split; [reflexivity |].
  exact (getAllEmployees_public_projection Hexec eq_refl).
Defined.

(** C3, as stated, fails: with one employee in the table the element of
    [data] has no id field and has a salary field. *)
Lemma getAllEmployees_not_list_projection :
  (run Sample.read_only_table EmployeeController.getAllEmployees [Sample.alice]).1.1
  = Fulfilled (ok 200 (Many [EmployeeResponseDto Sample.alice]))
  /\ ~ has_field "id" (EmployeeResponseDto Sample.alice)
  /\ has_field "salary" (EmployeeResponseDto Sample.alice)
  /\ ~ Forall (fun o => has_field "id" o /\ ~ has_field "salary" o)
         [EmployeeResponseDto Sample.alice].
Proof.
  split; [reflexivity |]. split; [decide_field |]. split; [decide_field |].
  intros Hall. apply Forall_cons in Hall as [[Hid _] _].
  revert Hid. decide_field.
Qed.

(** ** The service *)

Section Service.
Context `{Builtins}.

(** The runs of [createEmployee]. *)
Lemma createEmployee_runs (data : CreateEmployeeData.t) tr o :
  let dto := CreateEmployeeRequestDto.new data in
  let v := CreateEmployeeRequestDto.validate dto in
  Exec (EmployeeService.createEmployee data) tr o ->
  (isValid v = false /\ tr = [] /\ o = Rejected (Error (join ", " (errors v))))
  \/ (isValid v = true /\
      exists r, head tr = Some (looked_up_email (CreateEmployeeRequestDto.email dto) r) /\
        match r with
        | Rejected e => tr = [looked_up_email (CreateEmployeeRequestDto.email dto) r]
                        /\ o = Rejected e
        | Fulfilled (Some _) =>
            tr = [looked_up_email (CreateEmployeeRequestDto.email dto) r]
            /\ o = Rejected conflict
        | Fulfilled None =>
            exists r',
              tr = [looked_up_email (CreateEmployeeRequestDto.email dto) r;
                    Prisma.Created (created_record dto) r']
              /\ o = r'
        end).
Proof.
  intros dto v. unfold EmployeeService.createEmployee. fold dto. fold v.
  destruct (isValid v) eqn:Hv; cbn [negb].
  - intros (r & tr' & -> & Hk). right. split; [done |]. exists r. split; [done |].
    destruct r as [[existing |] | e].
    + destruct Hk as [-> ->]. done.
    + destruct Hk as (r' & tr'' & -> & Hk). exists r'.
      destruct r' as [employee | e]; destruct Hk as [-> ->]; done.
    + destruct Hk as [-> ->]. done.
  - intros [-> ->]. left. done.
Qed.
(** What a create DTO that passes [validate] holds. *)
Lemma valid_create_dto (this : CreateEmployeeRequestDto.t) :
  isValid (CreateEmployeeRequestDto.validate this) = true ->
  (exists n, CreateEmployeeRequestDto.name this = Some n /\ n <> "")
  /\ (exists e, CreateEmployeeRequestDto.email this = Some e /\ e <> ""
                /\ test emailRegex e = true)
  /\ (exists p, CreateEmployeeRequestDto.position this = Some p /\ p <> "")
  /\ (exists d, CreateEmployeeRequestDto.department this = Some d /\ d <> "")
  /\ (truthy (CreateEmployeeRequestDto.salary this) = true
      /\ num_lt zero (ToNumber (CreateEmployeeRequestDto.salary this)) = true)
  /\ (exists t, CreateEmployeeRequestDto.hireDate this = Some t /\ isNaN (getTime t) = false).
Proof.
  intros Hv. apply validate_isValid in Hv. rewrite validate_errors in Hv.
  unfold applicable_errors, create_checks in Hv. rewrite !checks_cons in Hv.
  destruct this as [n e p d s h].
  cbn [CreateEmployeeRequestDto.name CreateEmployeeRequestDto.email
       CreateEmployeeRequestDto.position CreateEmployeeRequestDto.department
       CreateEmployeeRequestDto.salary CreateEmployeeRequestDto.hireDate] in Hv |- *.
  apply no_message in Hv as [Hn Hv]. apply no_message in Hv as [He Hv].
  apply no_message in Hv as [Hre Hv]. apply no_message in Hv as [Hp Hv].
  apply no_message in Hv as [Hd Hv]. apply no_message in Hv as [Hs Hv].
  apply no_message in Hv as [Hpos Hv]. apply no_message in Hv as [Hh Hv].
  apply no_message in Hv as [Ht _].
  apply negb_false_iff in Hn, He, Hp, Hd, Hs, Hh.
  rewrite He in Hre. rewrite Hs in Hpos. cbn [andb] in Hre, Hpos.
  apply negb_false_iff in Hre. apply orb_false_iff in Hpos as [Hnan Hle].
  destruct n as [[| c1 n] |]; try discriminate Hn.
  destruct e as [[| c2 e] |]; try discriminate He.
  destruct p as [[| c3 p] |]; try discriminate Hp.
  destruct d as [[| c4 d] |]; try discriminate Hd.
  destruct h as [t |]; try discriminate Hh.
  repeat split; eauto using not_le_zero_positive.
Qed.

(** C6. If [findByEmail] on the normalized input email finds an existing
    employee, [createEmployee] fails with the Conflict error
    "Employee with this email already exists" and the repository's create
    operation is never invoked: the lookup is the only call made. *)
Theorem createEmployee_duplicate_email (data : CreateEmployeeData.t) tr o w existing :
  Exec (EmployeeService.createEmployee data) tr o ->
  In (looked_up_email w (Fulfilled (Some existing))) tr ->
  (exists s, CreateEmployeeData.email data = Val s /\ w = Some (toLowerCase (trim s)))
  /\ o = Rejected (Error "Employee with this email already exists")
  /\ tr = [looked_up_email w (Fulfilled (Some existing))]
  /\ Forall (fun ev => Prisma.is_create ev = false) tr.
Proof.
  intros Hexec Hin.
  apply createEmployee_runs in Hexec as [(_ & -> & _) | (Hv & r & _ & Hr)]; [done |].
  assert (Hfound : tr = [looked_up_email w (Fulfilled (Some existing))] /\ o = Rejected conflict
                   /\ w = CreateEmployeeRequestDto.email (CreateEmployeeRequestDto.new data)).
  { destruct r as [[found |] | e].
    - destruct Hr as [-> ->]. destruct Hin as [Heq | []]. injection Heq as <- <-. done.
    - destruct Hr as (r' & -> & _). destruct Hin as [Heq | [Heq | []]]; discriminate Heq.
    - destruct Hr as [-> _]. destruct Hin as [Heq | []]. discriminate Heq. }
  destruct Hfound as (-> & -> & ->).
  apply valid_create_dto in Hv as (_ & (e & He & _) & _).
  cbn [CreateEmployeeRequestDto.new CreateEmployeeRequestDto.email] in He |- *.
  destruct (CreateEmployeeData.email data) as [| | s]; try discriminate He.
  repeat split; [by exists s | by repeat constructor].
Qed.



(** The runs of [updateEmployee] on an existing id. *)
Lemma updateEmployee_runs (id : string) (data : CreateEmployeeData.t) employee tr o :
  let dto := UpdateEmployeeRequestDto.new data in
  let v := UpdateEmployeeRequestDto.validate dto in
  let lookup := looked_up_email (UpdateEmployeeRequestDto.get_email dto) in
  Exec (EmployeeService.updateEmployee id data) tr o ->
  head tr = Some (found_by_id id employee) ->
  (isValid v = false
   /\ tr = [found_by_id id employee] /\ o = Rejected (Error (join ", " (errors v))))
  \/ (isValid v = true /\ UpdateEmployeeRequestDto.isEmpty dto = true
      /\ tr = [found_by_id id employee] /\ o = Rejected (Error "No fields to update"))
  \/ (isValid v = true /\ UpdateEmployeeRequestDto.isEmpty dto = false
      /\ changes_email dto employee = false
      /\ exists r, tr = [found_by_id id employee; updated id dto r] /\ o = r)
  \/ (isValid v = true /\ UpdateEmployeeRequestDto.isEmpty dto = false
      /\ changes_email dto employee = true
      /\ exists r,
          match r with
          | Rejected e => tr = [found_by_id id employee; lookup r] /\ o = Rejected e
          | Fulfilled (Some _) =>
              tr = [found_by_id id employee; lookup r] /\ o = Rejected conflict
          | Fulfilled None =>
              exists r', tr = [found_by_id id employee; lookup r; updated id dto r'] /\ o = r'
          end).
Proof.
  intros dto v lookup (r & tr' & -> & Hk) Hhead.
  injection Hhead as ->. cbn [bind] in Hk. fold dto in Hk. fold v in Hk.
  destruct (isValid v) eqn:Hv; cbn [negb] in Hk.
  2:{ destruct Hk as [-> ->]. left. done. }
  destruct (UpdateEmployeeRequestDto.isEmpty dto) eqn:Hempty.
  { destruct Hk as [-> ->]. right. left. done. }
  fold (changes_email dto employee) in Hk.
  destruct (changes_email dto employee) eqn:Hchanges.
  - right. right. right. repeat (split; [done |]).
    destruct Hk as (r & tr'' & -> & Hk). exists r.
    destruct r as [[other |] | e].
    + destruct Hk as [-> ->]. done.
    + destruct Hk as (r' & tr3 & -> & Hk). exists r'.
      destruct r' as [updated_row | e]; destruct Hk as [-> ->]; done.
    + destruct Hk as [-> ->]. done.
  - right. right. left. repeat (split; [done |]).
    destruct Hk as (r' & tr3 & -> & Hk). exists r'.
    destruct r' as [updated_row | e]; destruct Hk as [-> ->]; done.
Qed.

(** C5. For every existing employee id, [updateEmployee] with a body that
    has no recognized field fails with "No fields to update"; the lookup
    by id is the only call made, so the update operation is never invoked
    and nothing is written. *)
Theorem updateEmployee_no_fields (id : string) employee tr o :
  Exec (EmployeeService.updateEmployee id CreateEmployeeData.empty) tr o ->
  head tr = Some (found_by_id id employee) ->
  o = Rejected (Error "No fields to update")
  /\ tr = [found_by_id id employee]
  /\ Forall (fun ev => Prisma.is_update ev = false /\ Prisma.is_write ev = false) tr.
Proof.
  intros Hexec Hhead.
  destruct (updateEmployee_runs Hexec Hhead)
    as [(Hv & _) | [(_ & _ & -> & ->) | [(_ & Hempty & _) | (_ & Hempty & _)]]];
    try discriminate.
  repeat split. by repeat constructor.
Qed.

Lemma isEmpty_false_email (this : UpdateEmployeeRequestDto.t) e :
  UpdateEmployeeRequestDto.email this = Some e -> UpdateEmployeeRequestDto.isEmpty this = false.
Proof.
  destruct this as [[n |] [e' |] [p |] [d |] [s |] [h |]]; cbn; intros He;
    try discriminate He; reflexivity.
Qed.

(** The email the update DTO holds when the body has one. *)
Lemma update_email_present (data : CreateEmployeeData.t) s :
  CreateEmployeeData.email data = Val s ->
  UpdateEmployeeRequestDto.email (UpdateEmployeeRequestDto.new data)
  = Some (Some (toLowerCase (trim s))).
Proof. intros Hs. cbn. by rewrite Hs. Qed.

(** C4, with the validation gate made explicit. For an existing employee
    id and an update input whose email is present: if the normalized
    email differs from the stored one and [findByEmail] finds a record
    holding it, [updateEmployee] fails with Conflict and never invokes the
    update; if the normalized email is the employee's own stored email and
    the input passes validation, [findByEmail] is not called, no Conflict
    is raised and the update is invoked with that email. *)
Theorem updateEmployee_email_uniqueness (id : string) (data : CreateEmployeeData.t)
    employee tr o s :
  Exec (EmployeeService.updateEmployee id data) tr o ->
  head tr = Some (found_by_id id employee) ->
  CreateEmployeeData.email data = Val s ->
  let email := toLowerCase (trim s) in
  let dto := UpdateEmployeeRequestDto.new data in
  (email <> Employee.email employee ->
   forall other, In (looked_up_email (Some email) (Fulfilled (Some other))) tr ->
     o = Rejected (Error "Employee with this email already exists")
     /\ tr = [found_by_id id employee; looked_up_email (Some email) (Fulfilled (Some other))]
     /\ Forall (fun ev => Prisma.is_update ev = false) tr)
  /\ (email = Employee.email employee ->
      isValid (UpdateEmployeeRequestDto.validate dto) = true ->
      exists r,
        tr = [found_by_id id employee; updated id dto r] /\ o = r
        /\ Prisma.set_email (EmployeeRepository.updateData dto) = Some email).
Proof.
  intros Hexec Hhead Hs email dto.
  pose proof (update_email_present data Hs) as Hemail. fold email in Hemail. fold dto in Hemail.
  assert (Hget : UpdateEmployeeRequestDto.get_email dto = Some email).
  { unfold UpdateEmployeeRequestDto.get_email. by rewrite Hemail. }
  pose proof (updateEmployee_runs Hexec Hhead) as Hruns. cbv zeta in Hruns. fold dto in Hruns.
  rewrite Hget in Hruns. split.
  - intros Hne other Hin.
    destruct Hruns as [(_ & -> & _) | [(_ & _ & -> & _) | [(_ & _ & _ & r & -> & _) |
                       (_ & _ & _ & r & Hr)]]].
    + destruct Hin as [Heq | []]. discriminate Heq.
    + destruct Hin as [Heq | []]. discriminate Heq.
    + destruct Hin as [Heq | [Heq | []]]; discriminate Heq.
    + destruct r as [[found |] | e].
      * destruct Hr as [-> ->]. destruct Hin as [Heq | [Heq | []]]; [discriminate Heq |].
        injection Heq as <-. repeat split. by repeat constructor.
      * destruct Hr as (r' & -> & _).
        destruct Hin as [Heq | [Heq | [Heq | []]]]; discriminate Heq.
      * destruct Hr as [-> _]. destruct Hin as [Heq | [Heq | []]]; discriminate Heq.
  - intros Hown Hvalid.
    assert (Hchanges : changes_email dto employee = false).
    { unfold changes_email. rewrite Hget, Hown, bool_decide_false by auto.
      apply andb_false_r. }
    rewrite (isEmpty_false_email dto Hemail), Hchanges, Hvalid in Hruns.
    destruct Hruns as [(? & _) | [(_ & ? & _) | [(_ & _ & _ & r & -> & ->) | (_ & _ & ? & _)]]];
      try discriminate.
    exists r. repeat split. cbn [EmployeeRepository.updateData Prisma.set_email].
    exact Hget.
Qed.

(** C9, for the four text fields. For an update input whose only
    recognized key is name, email, position or department, present with
    the value null: the DTO owns that property, with the value undefined,
    so [isEmpty] is false; on an existing id [updateEmployee] does not
    stop at "No fields to update" but invokes the update, with a payload
    that has no field at all. *)
Theorem updateEmployee_null_text_field (k : string) (id : string) employee tr o :
  In k ["name"; "email"; "position"; "department"] ->
  Exec (EmployeeService.updateEmployee id (null_field k)) tr o ->
  head tr = Some (found_by_id id employee) ->
  let dto := UpdateEmployeeRequestDto.new (null_field k) in
  UpdateEmployeeRequestDto.keys dto = [k]
  /\ (UpdateEmployeeRequestDto.get_name dto = None
      /\ UpdateEmployeeRequestDto.get_email dto = None
      /\ UpdateEmployeeRequestDto.get_position dto = None
      /\ UpdateEmployeeRequestDto.get_department dto = None)
  /\ UpdateEmployeeRequestDto.isEmpty dto = false
  /\ EmployeeRepository.updateData dto = Prisma.no_fields
  /\ exists r,
      tr = [found_by_id id employee; Prisma.Updated (parseInt id) Prisma.no_fields r]
      /\ o = r.
Proof.
  intros Hk Hexec Hhead dto.
  pose proof (updateEmployee_runs Hexec Hhead) as Hruns. cbv zeta in Hruns. fold dto in Hruns.
  assert (Hdto : UpdateEmployeeRequestDto.keys dto = [k]
                 /\ UpdateEmployeeRequestDto.validate dto = {| isValid := true; errors := [] |}
                 /\ EmployeeRepository.updateData dto = Prisma.no_fields
                 /\ changes_email dto employee = false).
  { unfold dto.
    destruct Hk as [<- | [<- | [<- | [<- | []]]]]; repeat split; reflexivity. }
  destruct Hdto as (Hkeys & Hvalid & Hpayload & Hchanges).
  assert (Hempty : UpdateEmployeeRequestDto.isEmpty dto = false).
  { unfold UpdateEmployeeRequestDto.isEmpty. by rewrite Hkeys. }
  rewrite Hvalid, Hempty, Hchanges in Hruns. cbn [isValid] in Hruns.
  destruct Hruns as [(? & _) | [(_ & ? & _) | [(_ & _ & _ & r & -> & ->) | (_ & _ & ? & _)]]];
    try discriminate.
  split; [done |]. split.
  { unfold dto. destruct Hk as [<- | [<- | [<- | [<- | []]]]]; repeat split; reflexivity. }
  split; [done |]. split; [done |].
  exists r. unfold updated. rewrite Hpayload. done.
Qed.

(** The update DTO of a body whose email trims to nothing. *)
Lemma update_email_blank (data : CreateEmployeeData.t) s :
  CreateEmployeeData.email data = Val s -> trim s = "" ->
  UpdateEmployeeRequestDto.get_email (UpdateEmployeeRequestDto.new data) = Some "".
Proof.
  intros Hs Hblank. unfold UpdateEmployeeRequestDto.get_email.
  rewrite (update_email_present data Hs), Hblank. reflexivity.
Qed.

(** C10, with the other fields taken into account. For an update input
    whose email is present but trims to the empty string: [validate]
    reports no "Invalid email format" and returns what it returns for the
    same input without the email, so [isValid] is true whenever salary and
    hire date are absent or valid; then, on an existing id, the
    uniqueness check is skipped and the update is invoked with the empty
    email in its payload; the create DTO rejects the same input with
    "Email is required". *)
Theorem update_blank_email (data : CreateEmployeeData.t) s :
  CreateEmployeeData.email data = Val s -> trim s = "" ->
  let dto := UpdateEmployeeRequestDto.new data in
  ~ In "Invalid email format" (errors (UpdateEmployeeRequestDto.validate dto))
  /\ UpdateEmployeeRequestDto.validate dto
     = UpdateEmployeeRequestDto.validate (UpdateEmployeeRequestDto.new (with_email data Undefined))
  /\ (forall id employee tr o,
        Exec (EmployeeService.updateEmployee id data) tr o ->
        head tr = Some (found_by_id id employee) ->
        isValid (UpdateEmployeeRequestDto.validate dto) = true ->
        exists r,
          tr = [found_by_id id employee; updated id dto r] /\ o = r
          /\ Prisma.set_email (EmployeeRepository.updateData dto) = Some "")
  /\ In "Email is required"
       (errors (CreateEmployeeRequestDto.validate (CreateEmployeeRequestDto.new data))).
Proof.
  intros Hs Hblank dto.
  pose proof (update_email_blank data Hs Hblank) as Hget. fold dto in Hget.
  assert (Hsame : UpdateEmployeeRequestDto.validate dto
                  = UpdateEmployeeRequestDto.validate
                      (UpdateEmployeeRequestDto.new (with_email data Undefined))).
  { unfold UpdateEmployeeRequestDto.validate. fold dto. rewrite Hget. reflexivity. }
  split; [| split; [exact Hsame | split]].
  - unfold UpdateEmployeeRequestDto.validate, push. fold dto. rewrite Hget.
    change (bool_decide (Some "" <> None) && truthy (Some "")
            && negb (UpdateEmployeeRequestDto.isValidEmail (Some ""))) with false.
    cbn [errors].
    repeat match goal with
           | |- context [if ?b then _ else _] => destruct b
           | |- context [match ?h with Some _ => _ | None => _ end] => destruct h
           end;
      cbn; intros Hin; repeat destruct Hin as [Hin | Hin]; try discriminate Hin; done.
  - intros id employee tr o Hexec Hhead Hvalid.
    pose proof (updateEmployee_runs Hexec Hhead) as Hruns. cbv zeta in Hruns. fold dto in Hruns.
    assert (Hchanges : changes_email dto employee = false).
    { unfold changes_email. by rewrite Hget. }
    assert (Hempty : UpdateEmployeeRequestDto.isEmpty dto = false).
    { apply isEmpty_false_email with (e := Some (toLowerCase (trim s))).
      by apply update_email_present. }
    rewrite Hvalid, Hempty, Hchanges in Hruns.
    destruct Hruns as [(? & _) | [(_ & ? & _) | [(_ & _ & _ & r & -> & ->) | (_ & _ & ? & _)]]];
      try discriminate.
    exists r. repeat split. cbn [EmployeeRepository.updateData Prisma.set_email].
    exact Hget.
  - rewrite validate_errors, applicable_errors_In. unfold create_checks.
    cbn [CreateEmployeeRequestDto.new CreateEmployeeRequestDto.email].
    rewrite Hs. cbn [optional_call]. rewrite Hblank. cbn. tauto.
Qed.

End Service.

(** ** The theorems at work on the reference engine *)

(** Builds an execution with the given trace, call by call. *)
Ltac exec_trace :=
  repeat (lazy; first [ split; reflexivity
                      | eexists; eexists; split; [reflexivity |] ]).

Lemma createEmployee_duplicate_email_witness :
  let tr := [looked_up_email (Some "john@ex.com") (Fulfilled (Some Scenario.john_row))] in
  let o : Settled Employee.t := Rejected conflict in
  Exec (EmployeeService.createEmployee Scenario.john) tr o
  /\ In (looked_up_email (Some "john@ex.com") (Fulfilled (Some Scenario.john_row))) tr
  /\ (exists s, CreateEmployeeData.email Scenario.john = Val s
                /\ Some "john@ex.com" = Some (toLowerCase (trim s)))
  /\ o = Rejected (Error "Employee with this email already exists")
  /\ tr = [looked_up_email (Some "john@ex.com") (Fulfilled (Some Scenario.john_row))]
  /\ Forall (fun ev => Prisma.is_create ev = false) tr.
Proof.
  intros tr o.
  assert (Hexec : Exec (EmployeeService.createEmployee Scenario.john) tr o) by exec_trace.
  assert (Hin : In (looked_up_email (Some "john@ex.com") (Fulfilled (Some Scenario.john_row))) tr)
    by (left; reflexivity).
  split; [exact Hexec |]. split; [exact Hin |].
  exact (@createEmployee_duplicate_email Engine.builtins _ _ _ _ _ Hexec Hin).
Defined.


Lemma updateEmployee_no_fields_witness :
  let tr := [found_by_id "1" Sample.alice] in
  let o : Settled Employee.t := Rejected (Error "No fields to update") in
  Exec (EmployeeService.updateEmployee "1" CreateEmployeeData.empty) tr o
  /\ head tr = Some (found_by_id "1" Sample.alice)
  /\ o = Rejected (Error "No fields to update")
  /\ tr = [found_by_id "1" Sample.alice]
  /\ Forall (fun ev => Prisma.is_update ev = false /\ Prisma.is_write ev = false) tr.
Proof.
  intros tr o.
  assert (Hexec : Exec (EmployeeService.updateEmployee "1" CreateEmployeeData.empty) tr o)
    by exec_trace.
  split; [exact Hexec |]. split; [reflexivity |].
  exact (updateEmployee_no_fields (H := Engine.builtins) Hexec eq_refl).
Defined.

Lemma updateEmployee_email_uniqueness_witness :
  let found := found_by_id "1" Sample.alice in
  let lookup := looked_up_email (Some "bob@ex.com") (Fulfilled (Some Sample.bob)) in
  let dto := UpdateEmployeeRequestDto.new Scenario.keep_own_email in
  (Exec (EmployeeService.updateEmployee "1" Scenario.take_bobs_email) [found; lookup]
     (Rejected conflict)
   /\ CreateEmployeeData.email Scenario.take_bobs_email = Val " Bob@Ex.com "
   /\ "bob@ex.com" <> Employee.email Sample.alice
   /\ In lookup [found; lookup]
   /\ (Rejected conflict : Settled Employee.t)
      = Rejected (Error "Employee with this email already exists")
   /\ Forall (fun ev => Prisma.is_update ev = false) [found; lookup])
  /\ (Exec (EmployeeService.updateEmployee "1" Scenario.keep_own_email)
        [found; updated "1" dto (Fulfilled Sample.alice)] (Fulfilled Sample.alice)
      /\ CreateEmployeeData.email Scenario.keep_own_email = Val "Alice@Ex.com"
      /\ "alice@ex.com" = Employee.email Sample.alice
      /\ isValid (UpdateEmployeeRequestDto.validate dto) = true
      /\ exists r,
          [found; updated "1" dto (Fulfilled Sample.alice)] = [found; updated "1" dto r]
          /\ Fulfilled Sample.alice = r
          /\ Prisma.set_email (EmployeeRepository.updateData dto) = Some "alice@ex.com").
Proof.
  intros found lookup dto. split.
  - assert (Hexec : Exec (EmployeeService.updateEmployee "1" Scenario.take_bobs_email)
                      [found; lookup] (Rejected conflict)) by exec_trace.
    assert (Hne : "bob@ex.com" <> Employee.email Sample.alice) by discriminate.
    assert (Hin : In lookup [found; lookup]) by (right; left; reflexivity).
    destruct (updateEmployee_email_uniqueness (H := Engine.builtins)
                (s := " Bob@Ex.com ") Hexec eq_refl eq_refl) as [Hconflict _].
    destruct (Hconflict Hne Sample.bob Hin) as (Ho & _ & Hno).
    split; [exact Hexec |]. split; [reflexivity |]. split; [exact Hne |].
    split; [exact Hin |]. split; [exact Ho | exact Hno].
  - assert (Hexec : Exec (EmployeeService.updateEmployee "1" Scenario.keep_own_email)
                      [found; updated "1" dto (Fulfilled Sample.alice)]
                      (Fulfilled Sample.alice)) by exec_trace.
    assert (Hvalid : isValid (UpdateEmployeeRequestDto.validate dto) = true)
      by (vm_compute; reflexivity).
    destruct (updateEmployee_email_uniqueness (H := Engine.builtins)
                (s := "Alice@Ex.com") Hexec eq_refl eq_refl) as [_ Hown].
    split; [exact Hexec |]. split; [reflexivity |]. split; [reflexivity |].
    split; [exact Hvalid | exact (Hown eq_refl Hvalid)].
Defined.

Lemma updateEmployee_null_text_field_witness :
  let tr := [found_by_id "1" Sample.alice;
             Prisma.Updated (parseInt "1") Prisma.no_fields (Fulfilled Sample.alice)] in
  let o := Fulfilled Sample.alice in
  let dto := UpdateEmployeeRequestDto.new (null_field "name") in
  In "name" ["name"; "email"; "position"; "department"]
  /\ Exec (EmployeeService.updateEmployee "1" (null_field "name")) tr o
  /\ head tr = Some (found_by_id "1" Sample.alice)
  /\ UpdateEmployeeRequestDto.keys dto = ["name"]
  /\ (UpdateEmployeeRequestDto.get_name dto = None
      /\ UpdateEmployeeRequestDto.get_email dto = None
      /\ UpdateEmployeeRequestDto.get_position dto = None
      /\ UpdateEmployeeRequestDto.get_department dto = None)
  /\ UpdateEmployeeRequestDto.isEmpty dto = false
  /\ EmployeeRepository.updateData dto = Prisma.no_fields
  /\ exists r,
      tr = [found_by_id "1" Sample.alice;
            Prisma.Updated (parseInt "1") Prisma.no_fields r]
      /\ o = r.
Proof.
  intros tr o dto.
  assert (Hk : In "name" ["name"; "email"; "position"; "department"]) by (left; reflexivity).
  assert (Hexec : Exec (EmployeeService.updateEmployee "1" (null_field "name")) tr o)
    by exec_trace.
  split; [exact Hk |]. split; [exact Hexec |]. split; [reflexivity |].
  exact (updateEmployee_null_text_field (H := Engine.builtins) Hk Hexec eq_refl).
Defined.

Lemma update_blank_email_witness :
  let data := Scenario.blank_email in
  let dto := UpdateEmployeeRequestDto.new data in
  let tr := [found_by_id "1" Sample.alice; updated "1" dto (Fulfilled Scenario.alice_blank)] in
  CreateEmployeeData.email data = Val "   "
  /\ trim "   " = ""
  /\ Exec (EmployeeService.updateEmployee "1" data) tr (Fulfilled Scenario.alice_blank)
  /\ isValid (UpdateEmployeeRequestDto.validate dto) = true
  /\ ~ In "Invalid email format" (errors (UpdateEmployeeRequestDto.validate dto))
  /\ (exists r,
        tr = [found_by_id "1" Sample.alice; updated "1" dto r]
        /\ Fulfilled Scenario.alice_blank = r
        /\ Prisma.set_email (EmployeeRepository.updateData dto) = Some "")
  /\ In "Email is required"
       (errors (CreateEmployeeRequestDto.validate (CreateEmployeeRequestDto.new data))).
Proof.
  intros data dto tr.
  assert (Hexec : Exec (EmployeeService.updateEmployee "1" data) tr
                    (Fulfilled Scenario.alice_blank)) by exec_trace.
  assert (Hvalid : isValid (UpdateEmployeeRequestDto.validate dto) = true) by reflexivity.
  destruct (@update_blank_email Engine.builtins data "   " eq_refl eq_refl)
    as (Hformat & _ & Hrun & Hcreate).
  split; [reflexivity |]. split; [reflexivity |]. split; [exact Hexec |].
  split; [exact Hvalid |]. split; [exact Hformat |].
  split; [exact (Hrun "1" Sample.alice tr _ Hexec eq_refl Hvalid) | exact Hcreate].
Defined.

(** ** Where the stated claims fail *)

(** C4, as stated, fails: the body [{email: "Alice@Ex.com", salary: -1}]
    carries the employee's own stored email, yet the update does not
    proceed; the run stops at validation and no update call is made. *)
Lemma updateEmployee_own_email_invalid_salary :
  let data := Scenario.own_email_bad_salary in
  let run1 := run Sample.read_only_table (EmployeeService.updateEmployee "1" data)
                [Sample.alice; Sample.bob] in
  UpdateEmployeeRequestDto.get_email (UpdateEmployeeRequestDto.new data)
  = Some (Employee.email Sample.alice)
  /\ run1 = (Rejected (Error "Salary must be a positive number"),
             [found_by_id "1" Sample.alice], [Sample.alice; Sample.bob])
  /\ ~ (exists ev, In ev run1.1.2 /\ Prisma.is_update ev = true).
Proof.
  intros data run1.
  assert (Hrun : run1 = (Rejected (Error "Salary must be a positive number"),
                         [found_by_id "1" Sample.alice], [Sample.alice; Sample.bob]))
    by (vm_compute; reflexivity).
  split; [reflexivity |]. split; [exact Hrun |].
  rewrite Hrun. intros (ev & [<- | []] & Hupdate). discriminate Hupdate.
Qed.


(** C9, as stated, fails for the key [hireDate]: with the body
    [{hireDate: null}] the DTO owns a hire date that is not undefined but
    the epoch, and the update payload carries it. *)
Lemma updateEmployee_null_hireDate :
  let data := null_field "hireDate" in
  let dto := UpdateEmployeeRequestDto.new data in
  let payload := EmployeeRepository.updateData dto in
  UpdateEmployeeRequestDto.keys dto = ["hireDate"]
  /\ UpdateEmployeeRequestDto.get_hireDate dto = Some (mkDate zero)
  /\ Prisma.set_hireDate payload = Some (mkDate zero)
  /\ payload <> Prisma.no_fields
  /\ Exec (EmployeeService.updateEmployee "1" data)
       [found_by_id "1" Sample.alice;
        Prisma.Updated (parseInt "1") payload (Fulfilled Scenario.alice_epoch)]
       (Fulfilled Scenario.alice_epoch).
Proof.
  intros data dto payload.
  split; [reflexivity |]. split; [reflexivity |]. split; [reflexivity |].
  split; [discriminate |]. exec_trace.
Qed.

(** For the key [salary] the DTO holds null, not undefined, and the
    request is refused by validation. *)
Example update_null_salary :
  let dto := UpdateEmployeeRequestDto.new (null_field "salary") in
  UpdateEmployeeRequestDto.salary dto = Some Null
  /\ UpdateEmployeeRequestDto.validate dto
     = {| isValid := false; errors := ["Salary must be a positive number"] |}.
Proof. split; reflexivity. Qed.

(** C10, as stated, fails: the body [{email: "   ", salary: -1}] has an
    email that trims to the empty string, and [validate] returns
    [isValid = false]. *)
Lemma update_blank_email_invalid_salary :
  let data := Scenario.blank_email_bad_salary in
  CreateEmployeeData.email data = Val "   "
  /\ trim "   " = ""
  /\ UpdateEmployeeRequestDto.validate (UpdateEmployeeRequestDto.new data)
     = {| isValid := false; errors := ["Salary must be a positive number"] |}.
Proof. intros data. repeat split; vm_compute; reflexivity. Qed.

(** * Further properties of the code *)

(** ** Strings *)

Lemma append_nil_l (s : string) : "" +:+ s = s.
Proof. reflexivity. Qed.

Lemma append_cons (c : ascii) (s1 s2 : string) : String c s1 +:+ s2 = String c (s1 +:+ s2).
Proof. reflexivity. Qed.

Lemma append_nil_r (s : string) : s +:+ "" = s.
Proof. induction s as [| c s IH]; [done |]. by rewrite append_cons, IH. Qed.

Lemma append_assoc (s1 s2 s3 : string) : (s1 +:+ s2) +:+ s3 = s1 +:+ (s2 +:+ s3).
Proof. induction s1 as [| c s1 IH]; [done |]. by rewrite !append_cons, IH. Qed.

Lemma append_eq_nil (s1 s2 : string) : s1 +:+ s2 = "" -> s1 = "" /\ s2 = "".
Proof. destruct s1; [done | discriminate]. Qed.

Lemma all_chars_append (p : ascii -> bool) (s1 s2 : string) :
  all_chars p (s1 +:+ s2) = all_chars p s1 && all_chars p s2.
Proof.
  induction s1 as [| c s1 IH]; [done |].
  rewrite append_cons. cbn. by rewrite IH, andb_assoc.
Qed.

Lemma count_char_append (x : ascii) (s1 s2 : string) :
  count_char x (s1 +:+ s2) = count_char x s1 + count_char x s2.
Proof.
  induction s1 as [| c s1 IH]; [done |].
  rewrite append_cons. cbn. rewrite IH. lia.
Qed.

(** ** The matcher decides the language of the expression *)

Lemma nullable_Matches (r : regex) : nullable r = true <-> Matches r "".
Proof.
  split.
  - induction r as [| | p | r1 IH1 r2 IH2 | r1 IH1 r2 IH2 | r IH]; cbn; intros Hn;
      try discriminate Hn.
    + constructor.
    + apply andb_true_iff in Hn as [H1 H2].
      change "" with ("" +:+ ""). constructor; auto.
    + apply orb_true_iff in Hn as [H1 | H2]; [apply MAltL | apply MAltR]; auto.
    + constructor.
  - intros Hm. remember "" as s eqn:Hs.
    induction Hm as [| p c Hp | r1 r2 s1 s2 H1 IH1 H2 IH2 | r1 r2 s H1 IH1 | r1 r2 s H2 IH2
                     | r | r s1 s2 H1 IH1 H2 IH2]; cbn; try done.
    + apply append_eq_nil in Hs as [-> ->]. by rewrite IH1, IH2.
    + by rewrite IH1.
    + rewrite IH2 by done. apply orb_true_r.
Qed.

Lemma deriv_Matches_1 (c : ascii) (r : regex) (s : string) :
  Matches (deriv c r) s -> Matches r (String c s).
Proof.
  revert s. induction r as [| | p | r1 IH1 r2 IH2 | r1 IH1 r2 IH2 | r IH]; cbn; intros s Hm.
  - inversion Hm.
  - inversion Hm.
  - destruct (p c) eqn:Hp; inversion Hm; subst. by constructor.
  - destruct (nullable r1) eqn:Hn.
    + inversion Hm as [| | | ? ? ? Hl | ? ? ? Hr | |]; subst.
      * inversion Hl as [| | ? ? s1 s2 Ha Hb | | | |]; subst.
        change (String c (s1 +:+ s2)) with (String c s1 +:+ s2). constructor; auto.
      * change (String c s) with ("" +:+ String c s).
        constructor; [by apply nullable_Matches | auto].
    + inversion Hm as [| | ? ? s1 s2 Ha Hb | | | |]; subst.
      change (String c (s1 +:+ s2)) with (String c s1 +:+ s2). constructor; auto.
  - inversion Hm; subst; [apply MAltL | apply MAltR]; auto.
  - inversion Hm as [| | ? ? s1 s2 Ha Hb | | | |]; subst.
    change (String c (s1 +:+ s2)) with (String c s1 +:+ s2). constructor; auto.
Qed.

Lemma deriv_Matches_2 (r : regex) (w : string) :
  Matches r w -> forall c s, w = String c s -> Matches (deriv c r) s.
Proof.
  induction 1 as [| p c' Hp | r1 r2 s1 s2 H1 IH1 H2 IH2 | r1 r2 s' H1 IH1 | r1 r2 s' H2 IH2
                  | r | r s1 s2 H1 IH1 H2 IH2]; intros c s Hw; cbn.
  - discriminate Hw.
  - injection Hw as <- <-. rewrite Hp. constructor.
  - destruct s1 as [| c1 s1].
    + rewrite append_nil_l in Hw. apply nullable_Matches in H1. rewrite H1.
      apply MAltR. by apply IH2.
    + rewrite append_cons in Hw. injection Hw as -> <-.
      assert (Hseq : Matches (Seq (deriv c r1) r2) (s1 +:+ s2))
        by (constructor; [by apply IH1 | done]).
      destruct (nullable r1); [by apply MAltL | done].
  - apply MAltL. by apply IH1.
  - apply MAltR. by apply IH2.
  - discriminate Hw.
  - destruct s1 as [| c1 s1].
    + rewrite append_nil_l in Hw. by apply IH2.
    + rewrite append_cons in Hw. injection Hw as -> <-. constructor; [by apply IH1 | done].
Qed.

Lemma test_Matches (r : regex) (s : string) : test r s = true <-> Matches r s.
Proof.
  revert r. induction s as [| c s IH]; intros r; cbn.
  - apply nullable_Matches.
  - rewrite IH. split; [apply deriv_Matches_1 |].
    intros Hm. by apply (deriv_Matches_2 Hm).
Qed.

Lemma Matches_star_class (p : ascii -> bool) (s : string) :
  Matches (Star (Class p)) s <-> all_chars p s = true.
Proof.
  split.
  - intros Hm. remember (Star (Class p)) as r eqn:Hr.
    induction Hm as [| | | | | r' | r' s1 s2 H1 _ H2 IH2]; try discriminate Hr; [done |].
    injection Hr as ->. inversion H1 as [| ? c Hc | | | | |]; subst.
    rewrite all_chars_append. cbn. by rewrite Hc, IH2.
  - induction s as [| c s IH]; cbn; intros Hall; [constructor |].
    apply andb_true_iff in Hall as [Hc Hs].
    change (String c s) with (String c "" +:+ s). constructor; [by constructor | auto].
Qed.

Lemma Matches_plus_class (p : ascii -> bool) (s : string) :
  Matches (Plus (Class p)) s <-> s <> "" /\ all_chars p s = true.
Proof.
  unfold Plus. split.
  - intros Hm. inversion Hm as [| | ? ? s1 s2 H1 H2 | | | |]; subst.
    inversion H1 as [| ? c Hc | | | | |]; subst. apply Matches_star_class in H2.
    split; [discriminate |]. rewrite all_chars_append. cbn. by rewrite Hc, H2.
  - intros [Hne Hall]. destruct s as [| c s]; [done |]. cbn in Hall.
    apply andb_true_iff in Hall as [Hc Hs].
    change (String c s) with (String c "" +:+ s).
    constructor; [by constructor | by apply Matches_star_class].
Qed.

Lemma Matches_lit (a : ascii) (s : string) : Matches (lit a) s <-> s = String a "".
Proof.
  unfold lit. split.
  - intros Hm. inversion Hm as [| ? c Hc | | | | |]; subst.
    apply Ascii.eqb_eq in Hc. by subst.
  - intros ->. constructor. apply Ascii.eqb_refl.
Qed.

Lemma emailRegex_shape (s : string) : test emailRegex s = true <-> address_shape s.
Proof.
  rewrite test_Matches. unfold emailRegex, address_shape, token. split.
  - intros Hm.
    inversion Hm as [| | ? ? a s1 Ha H1 | | | |]; subst.
    inversion H1 as [| | ? ? at_ s2 Hat H2 | | | |]; subst.
    inversion H2 as [| | ? ? b s3 Hb H3 | | | |]; subst.
    inversion H3 as [| | ? ? dot c Hdot Hc | | | |]; subst.
    apply Matches_lit in Hat as ->. apply Matches_lit in Hdot as ->.
    apply Matches_plus_class in Ha, Hb, Hc. by exists a, b, c.
  - intros (a & b & c & -> & Ha & Hb & Hc).
    apply Matches_plus_class in Ha, Hb, Hc.
    repeat (constructor; [done || by apply Matches_lit |]). done.
Qed.

Lemma token_no_at (s : string) : all_chars not_space_at s = true -> count_char "@" s = 0.
Proof.
  induction s as [| c s IH]; cbn; [done |]. intros Hall.
  apply andb_true_iff in Hall as [Hc Hs]. rewrite (IH Hs).
  unfold not_space_at in Hc. apply negb_true_iff, orb_false_iff in Hc as [_ Hc].
  by rewrite Hc.
Qed.

Lemma token_no_space (s : string) :
  all_chars not_space_at s = true -> all_chars (fun c => negb (is_white_space c)) s = true.
Proof.
  induction s as [| c s IH]; cbn; [done |]. intros Hall.
  apply andb_true_iff in Hall as [Hc Hs]. rewrite (IH Hs), andb_true_r.
  unfold not_space_at in Hc. apply negb_true_iff, orb_false_iff in Hc as [Hc _].
  by rewrite Hc.
Qed.

(** X1. [isValidEmail] accepts exactly the strings of the shape
    [token@token.token], a token being a non-empty run of characters that
    are neither white space nor [@]; an accepted address therefore holds
    exactly one [@] and no white space. *)
Theorem isValidEmail_shape (s : string) :
  (CreateEmployeeRequestDto.isValidEmail (Some s) = true <-> address_shape s)
  /\ (UpdateEmployeeRequestDto.isValidEmail (Some s) = true <-> address_shape s)
  /\ (address_shape s ->
      count_char "@" s = 1 /\ all_chars (fun c => negb (is_white_space c)) s = true).
Proof.
  split; [apply emailRegex_shape | split; [apply emailRegex_shape |]].
  intros (a & b & c & -> & [_ Ha] & [_ Hb] & [_ Hc]). split.
  - rewrite !count_char_append, (token_no_at a Ha), (token_no_at b Hb), (token_no_at c Hc).
    reflexivity.
  - rewrite !all_chars_append, (token_no_space a Ha), (token_no_space b Hb),
      (token_no_space c Hc). reflexivity.
Qed.

(** ** Sanitization and validation of the text fields *)

Lemma trimStart_blank (s : string) : all_chars is_white_space s = true -> trimStart s = "".
Proof.
  induction s as [| c s IH]; cbn; [done |]. intros Hall.
  apply andb_true_iff in Hall as [Hc Hs]. rewrite Hc. auto.
Qed.

Lemma trimStart_nil_blank (s : string) : trimStart s = "" -> all_chars is_white_space s = true.
Proof.
  induction s as [| c s IH]; cbn; [done |].
  destruct (is_white_space c); [auto | discriminate].
Qed.

Lemma trimStart_head (s : string) :
  trimStart s = "" \/ exists c t, trimStart s = String c t /\ is_white_space c = false.
Proof.
  induction s as [| c s IH]; cbn; [by left |].
  destruct (is_white_space c) eqn:Hc; [done |]. right. by exists c, s.
Qed.

Lemma trimEnd_head (c : ascii) (t : string) :
  is_white_space c = false -> trimEnd (String c t) <> "".
Proof. intros Hc. cbn. rewrite Hc. by destruct (trimEnd t). Qed.

(** [trim] leaves nothing exactly when the string is white space only. *)
Lemma trim_nil_iff (s : string) : trim s = "" <-> all_chars is_white_space s = true.
Proof.
  unfold trim. split.
  - intros Ht. destruct (trimStart_head s) as [Hs | (c & t & Hs & Hc)].
    + by apply trimStart_nil_blank.
    + rewrite Hs in Ht. by apply trimEnd_head in Ht.
  - intros Hall. by rewrite (trimStart_blank s Hall).
Qed.

Lemma toLowerCase_nil_iff (s : string) : toLowerCase s = "" <-> s = "".
Proof. by destruct s. Qed.

Lemma truthy_trimmed (normalize : string -> string) (v : maybe string) :
  (forall s, normalize s = "" <-> all_chars is_white_space s = true) ->
  truthy (optional_call normalize v) = false <-> missing_text v.
Proof.
  intros Hn. destruct v as [| | s]; cbn; [done | done |].
  rewrite <- Hn. by destruct (normalize s).
Qed.

Lemma create_check_name (this : CreateEmployeeRequestDto.t) :
  In (true, "Name is required") (create_checks this)
  <-> truthy (CreateEmployeeRequestDto.name this) = false.
Proof.
  unfold create_checks. cbn [In]. rewrite <- negb_true_iff. split.
  - intros Hin. repeat destruct Hin as [Hin | Hin]; try discriminate Hin; [| done].
    by injection Hin.
  - intros ->. by left.
Qed.

Lemma create_check_email (this : CreateEmployeeRequestDto.t) :
  In (true, "Email is required") (create_checks this)
  <-> truthy (CreateEmployeeRequestDto.email this) = false.
Proof.
  unfold create_checks. cbn [In]. rewrite <- negb_true_iff. split.
  - intros Hin. repeat destruct Hin as [Hin | Hin]; try discriminate Hin; [| done].
    by injection Hin.
  - intros ->. right. by left.
Qed.

Lemma create_check_position (this : CreateEmployeeRequestDto.t) :
  In (true, "Position is required") (create_checks this)
  <-> truthy (CreateEmployeeRequestDto.position this) = false.
Proof.
  unfold create_checks. cbn [In]. rewrite <- negb_true_iff. split.
  - intros Hin. repeat destruct Hin as [Hin | Hin]; try discriminate Hin; [| done].
    by injection Hin.
  - intros ->. do 3 right. by left.
Qed.

Lemma create_check_department (this : CreateEmployeeRequestDto.t) :
  In (true, "Department is required") (create_checks this)
  <-> truthy (CreateEmployeeRequestDto.department this) = false.
Proof.
  unfold create_checks. cbn [In]. rewrite <- negb_true_iff. split.
  - intros Hin. repeat destruct Hin as [Hin | Hin]; try discriminate Hin; [| done].
    by injection Hin.
  - intros ->. do 4 right. by left.
Qed.

(** X2. In a create request each of name, email, position and department
    is reported with its "required" message exactly when the body gives
    it as undefined, null, or a string of white space only. *)
Theorem create_blank_text_is_missing `{Builtins} (data : CreateEmployeeData.t) :
  let r := CreateEmployeeRequestDto.validate (CreateEmployeeRequestDto.new data) in
  (In "Name is required" (errors r) <-> missing_text (CreateEmployeeData.name data))
  /\ (In "Email is required" (errors r) <-> missing_text (CreateEmployeeData.email data))
  /\ (In "Position is required" (errors r) <-> missing_text (CreateEmployeeData.position data))
  /\ (In "Department is required" (errors r)
      <-> missing_text (CreateEmployeeData.department data)).
Proof.
  intros r. unfold r. rewrite validate_errors, !applicable_errors_In.
  rewrite create_check_name, create_check_email, create_check_position,
    create_check_department.
  cbn [CreateEmployeeRequestDto.new CreateEmployeeRequestDto.name
       CreateEmployeeRequestDto.email CreateEmployeeRequestDto.position
       CreateEmployeeRequestDto.department].
  assert (Hlow : forall s, toLowerCase (trim s) = "" <-> all_chars is_white_space s = true).
  { intros s. by rewrite toLowerCase_nil_iff, trim_nil_iff. }
  repeat split; try (apply (truthy_trimmed trim); apply trim_nil_iff);
    apply (truthy_trimmed (fun s => toLowerCase (trim s))); exact Hlow.
Qed.

(** ** Which create requests pass validation *)

Lemma truthy_Some_text (s : string) : truthy (Some s) = true <-> s <> "".
Proof. by destruct s. Qed.

(** X3. A create request passes [validate] exactly when name, position
    and department are strings with something left after trimming, the
    trimmed, lowercased email has the shape [token@token.token], the
    salary (read by [parseFloat] when it is a string, taken as it is
    otherwise) converts to a number above zero, and the hire date is
    truthy and [new Date] makes a valid date of it. Nothing asks the
    salary to be a number or the hire date to be a string or a [Date]. *)
Theorem create_valid_iff `{Builtins} (data : CreateEmployeeData.t) :
  isValid (CreateEmployeeRequestDto.validate (CreateEmployeeRequestDto.new data)) = true
  <->
  (exists n, CreateEmployeeData.name data = Val n /\ trim n <> "")
  /\ (exists e, CreateEmployeeData.email data = Val e
                /\ address_shape (toLowerCase (trim e)))
  /\ (exists p, CreateEmployeeData.position data = Val p /\ trim p <> "")
  /\ (exists d, CreateEmployeeData.department data = Val d /\ trim d <> "")
  /\ num_lt zero (ToNumber (coerce_salary (CreateEmployeeData.salary data))) = true
  /\ (truthy (CreateEmployeeData.hireDate data) = true
      /\ isNaN (getTime (newDate (CreateEmployeeData.hireDate data))) = false).
Proof.
  destruct data as [n e p d s h]. split.
  - intros Hv. apply valid_create_dto in Hv
      as ((n' & Hn & Hn') & (e' & He & _ & He') & (p' & Hp & Hp') & (d' & Hd & Hd')
          & (_ & Hpos) & (t & Ht & Hnan)).
    cbn in Hn, He, Hp, Hd, Hpos, Ht |- *.
    destruct n as [| | n]; try discriminate Hn. injection Hn as <-.
    destruct e as [| | e]; try discriminate He. injection He as <-.
    destruct p as [| | p]; try discriminate Hp. injection Hp as <-.
    destruct d as [| | d]; try discriminate Hd. injection Hd as <-.
    apply emailRegex_shape in He'.
    destruct (truthy h) eqn:Hh; [| discriminate Ht]. injection Ht as <-.
    repeat split; eauto.
  - intros ((n' & Hn & Hn') & (e' & He & He') & (p' & Hp & Hp') & (d' & Hd & Hd')
            & Hpos & Hh & Hnan).
    cbn in Hn, He, Hp, Hd, Hpos, Hh, Hnan. subst n e p d.
    pose proof (positive_truthy _ Hpos) as Hst.
    apply positive_passes_salary_checks in Hpos as (_ & Hxn & Hxl).
    apply emailRegex_shape in He'. apply truthy_Some_text in Hn', Hp', Hd'.
    assert (He'' : truthy (Some (toLowerCase (trim e'))) = true).
    { apply truthy_Some_text. intros Hnil. rewrite Hnil in He'. discriminate He'. }
    unfold CreateEmployeeRequestDto.validate, push.
    cbn [CreateEmployeeRequestDto.new CreateEmployeeRequestDto.name
         CreateEmployeeRequestDto.email CreateEmployeeRequestDto.position
         CreateEmployeeRequestDto.department CreateEmployeeRequestDto.salary
         CreateEmployeeRequestDto.hireDate CreateEmployeeData.name CreateEmployeeData.email
         CreateEmployeeData.position CreateEmployeeData.department
         CreateEmployeeData.salary CreateEmployeeData.hireDate optional_call].
    rewrite Hh, Hnan.
    unfold CreateEmployeeRequestDto.isValidEmail, ToString.
    rewrite Hn', He'', He', Hp', Hd', Hst, Hxn, Hxl.
    reflexivity.
Qed.

(** A hire date given as a number of milliseconds passes as well: the body
    of the example scenario with [hireDate: 1705276800000]. *)
Example create_valid_hireDate_number :
  let data :=
    {| CreateEmployeeData.name := Val "John Doe";
       CreateEmployeeData.email := Val " John@Ex.com ";
       CreateEmployeeData.position := Val "Engineer";
       CreateEmployeeData.department := Val "Eng";
       CreateEmployeeData.salary := Val (inr "75000");
       CreateEmployeeData.hireDate := Val (inl (JNumber (number_of_Z 1705276800000))) |} in
  let dto := CreateEmployeeRequestDto.new data in
  CreateEmployeeRequestDto.validate dto = {| isValid := true; errors := [] |}
  /\ CreateEmployeeRequestDto.salary dto = Val (JNumber (number_of_Z 75000))
  /\ CreateEmployeeRequestDto.hireDate dto = Some (Sample.date 1705276800000).
Proof. intros data dto. repeat split; vm_compute; reflexivity. Qed.

(** ** The update DTO *)

(** X4. The update DTO is empty exactly when the body gives none of the
    six recognized fields a value other than undefined; a field given as
    null counts as present. *)
Theorem update_isEmpty_iff `{Builtins} (data : CreateEmployeeData.t) :
  UpdateEmployeeRequestDto.isEmpty (UpdateEmployeeRequestDto.new data) = true
  <-> data = CreateEmployeeData.empty.
Proof.
  destruct data as [n e p d s h]. split.
  - destruct n, e, p, d, s, h; try discriminate 1; reflexivity.
  - intros Heq. injection Heq as -> -> -> -> -> ->. reflexivity.
Qed.

Lemma update_validate_errors (this : UpdateEmployeeRequestDto.t) :
  errors (UpdateEmployeeRequestDto.validate this)
  = List.map snd (List.filter fst (update_checks this)).
Proof.
  unfold UpdateEmployeeRequestDto.validate, update_checks, push. cbn [errors].
  destruct (bool_decide _ && _ && _);
    destruct (UpdateEmployeeRequestDto.defined _ && _);
    destruct (UpdateEmployeeRequestDto.get_hireDate this) as [t |];
    try destruct (isNaN (getTime t)); reflexivity.
Qed.

(** X5. The update DTO never reports a missing field: its errors are
    drawn, in this order, from "Invalid email format", "Salary must be a
    positive number" and "Invalid hire date format", each reported exactly
    when its check applies, and a body without email, salary and hire date
    is always valid. *)
Theorem update_validate_reports `{Builtins} (data : CreateEmployeeData.t) :
  let this := UpdateEmployeeRequestDto.new data in
  let r := UpdateEmployeeRequestDto.validate this in
  errors r = List.map snd (List.filter fst (update_checks this))
  /\ (forall msg, In msg (errors r) ->
        In msg ["Invalid email format"; "Salary must be a positive number";
                "Invalid hire date format"])
  /\ (isValid r = true <-> errors r = [])
  /\ (CreateEmployeeData.email data = Undefined ->
      CreateEmployeeData.salary data = Undefined ->
      CreateEmployeeData.hireDate data = Undefined ->
      r = {| isValid := true; errors := [] |}).
Proof.
  intros this r. split; [apply update_validate_errors |]. split; [| split].
  - intros msg. unfold r. rewrite update_validate_errors. unfold update_checks.
    cbn [List.filter].
    repeat match goal with |- context [if ?b then _ else _] => destruct b end;
      cbn; tauto.
  - unfold r, UpdateEmployeeRequestDto.validate. cbn [isValid errors].
    match goal with |- Nat.eqb (length ?l) 0 = true <-> _ => destruct l end; done.
  - intros He Hs Hh. unfold r, this. destruct data as [n e p d s h].
    cbn in He, Hs, Hh. subst. reflexivity.
Qed.

Lemma update_validate_reports_witness :
  let data := CreateEmployeeData.mk (Val " Ann ") Undefined (Val "Lead") Undefined
                Undefined Undefined in
  CreateEmployeeData.email data = Undefined
  /\ CreateEmployeeData.salary data = Undefined
  /\ CreateEmployeeData.hireDate data = Undefined
  /\ UpdateEmployeeRequestDto.validate (UpdateEmployeeRequestDto.new data)
     = {| isValid := true; errors := [] |}.
Proof.
  intros data. split; [reflexivity |]. split; [reflexivity |]. split; [reflexivity |].
  destruct (@update_validate_reports Engine.builtins data) as (_ & _ & _ & Hvalid).
  exact (Hvalid eq_refl eq_refl eq_refl).
Defined.

(** X6. The payload that [repository.update] builds from the update DTO
    of a body holds, for each recognized key of the body: no entry when
    the value is undefined; the trimmed text (lowercased for the email)
    for a string; no entry for a null text; null for a null salary; the
    epoch for a null hire date. A salary that is not a string is passed
    on as it is, a string as the number [parseFloat] reads; a hire date
    that is a number is clipped to a time value. No other entry is ever
    built. *)
Theorem update_payload_of_body `{Builtins} (data : CreateEmployeeData.t) :
  EmployeeRepository.updateData (UpdateEmployeeRequestDto.new data) = payload_of_body data.
Proof.
  destruct data as [n e p d s h].
  destruct n, e, p, d, s as [| | [[x | b | t] | text]],
    h as [| | [[x' | [|] | [t']] | text']]; reflexivity.
Qed.

(** ** The remaining service operations *)

Section ServiceOperations.
Context `{Builtins}.

(** X7. [getEmployeeById] makes exactly one call, the lookup by the
    parsed id, and writes nothing; it returns the row found, fails with
    "Employee not found" when there is none, and passes a failure of the
    lookup on unchanged. *)
Theorem getEmployeeById_runs (id : string) tr o :
  Exec (EmployeeService.getEmployeeById id) tr o ->
  exists r,
    tr = [Prisma.FoundUnique (Prisma.WhereId (parseInt id)) r]
    /\ o = match r with
           | Fulfilled (Some employee) => Fulfilled employee
           | Fulfilled None => Rejected (Error "Employee not found")
           | Rejected e => Rejected e
           end.
Proof.
  intros (r & tr' & -> & Hk). exists r.
  destruct r as [[employee |] | e]; destruct Hk as [-> ->]; done.
Qed.

(** X8. [deleteEmployee] looks the id up first. When no row is found it
    fails with "Employee not found" and the delete is never invoked;
    when a row is found the delete is invoked once, on the same parsed
    id, and its outcome is the outcome of the operation. *)
Theorem deleteEmployee_runs (id : string) tr o :
  Exec (EmployeeService.deleteEmployee id) tr o ->
  exists r,
    head tr = Some (Prisma.FoundUnique (Prisma.WhereId (parseInt id)) r)
    /\ match r with
       | Fulfilled (Some _) =>
           exists r', tr = [Prisma.FoundUnique (Prisma.WhereId (parseInt id)) r;
                            Prisma.Deleted (parseInt id) r']
                      /\ o = r'
       | Fulfilled None =>
           tr = [Prisma.FoundUnique (Prisma.WhereId (parseInt id)) r]
           /\ o = Rejected (Error "Employee not found")
       | Rejected e =>
           tr = [Prisma.FoundUnique (Prisma.WhereId (parseInt id)) r] /\ o = Rejected e
       end.
Proof.
  intros (r & tr' & -> & Hk). exists r. split; [done |].
  destruct r as [[employee |] | e].
  - destruct Hk as (r' & tr'' & -> & Hk). exists r'.
    destruct r' as [row | e]; destruct Hk as [-> ->]; done.
  - destruct Hk as [-> ->]. done.
  - destruct Hk as [-> ->]. done.
Qed.

(** X9. [getEmployeesByDepartment] with a missing or empty department
    fails with "Department is required" without calling the database;
    with any other department it makes exactly one call, the listing
    filtered on that very string, and returns its outcome. *)
Theorem getEmployeesByDepartment_runs (department : option string) tr o :
  Exec (EmployeeService.getEmployeesByDepartment department) tr o ->
  match department with
  | None | Some "" => tr = [] /\ o = Rejected (Error "Department is required")
  | Some d => exists r, tr = [Prisma.FoundMany (Some d) r] /\ o = r
  end.
Proof.
  destruct department as [[| c d] |]; cbn; try done.
  intros (r & tr' & -> & Hk). exists r.
  destruct r as [rows | e]; destruct Hk as [-> ->]; done.
Qed.

(** X10. [createEmployee] never reaches the database with an invalid
    body: the run then makes no call and fails with the messages joined
    by a comma. In every run the only write is the create that follows an
    email lookup resolved to null, so at most one row is written. *)
Theorem createEmployee_writes (data : CreateEmployeeData.t) tr o :
  Exec (EmployeeService.createEmployee data) tr o ->
  let dto := CreateEmployeeRequestDto.new data in
  let v := CreateEmployeeRequestDto.validate dto in
  (isValid v = false -> tr = [] /\ o = Rejected (Error (join ", " (errors v))))
  /\ (forall ev, In ev tr -> Prisma.is_write ev = true ->
        isValid v = true
        /\ tr = [looked_up_email (CreateEmployeeRequestDto.email dto) (Fulfilled None); ev]
        /\ exists r, ev = Prisma.Created (created_record dto) r /\ o = r)
  /\ length (writes tr) <= 1.
Proof.
  intros Hexec dto v.
  apply createEmployee_runs in Hexec as [(Hv & -> & ->) | (Hv & r & _ & Hr)];
    fold dto in Hv |- *; fold v in Hv |- *.
  - split; [done |]. split; [intros ev [] | cbn; lia].
  - rewrite Hv. split; [discriminate |].
    destruct r as [[found |] | e].
    + destruct Hr as [-> ->]. split; [| cbn; lia].
      intros ev [<- | []] Hw. discriminate Hw.
    + destruct Hr as (r' & -> & ->). split; [| cbn; lia].
      intros ev [<- | [<- | []]] Hw; [discriminate Hw |]. eauto.
    + destruct Hr as [-> ->]. split; [| cbn; lia].
      intros ev [<- | []] Hw. discriminate Hw.
Qed.

(** X11. [updateEmployee] on an id that has no row fails with "Employee
    not found" whatever the body is, valid or not: the lookup is the only
    call made. *)
Theorem updateEmployee_not_found (id : string) (data : CreateEmployeeData.t) tr o :
  Exec (EmployeeService.updateEmployee id data) tr o ->
  head tr = Some (Prisma.FoundUnique (Prisma.WhereId (parseInt id)) (Fulfilled None)) ->
  tr = [Prisma.FoundUnique (Prisma.WhereId (parseInt id)) (Fulfilled None)]
  /\ o = Rejected (Error "Employee not found").
Proof.
  intros (r & tr' & -> & Hk) Hhead. injection Hhead as ->.
  destruct Hk as [-> ->]. done.
Qed.

(** The first call of [updateEmployee] is the lookup by id. *)
Lemma updateEmployee_first_call (id : string) (data : CreateEmployeeData.t) tr o :
  Exec (EmployeeService.updateEmployee id data) tr o ->
  exists r, head tr = Some (Prisma.FoundUnique (Prisma.WhereId (parseInt id)) r)
    /\ ((forall employee, r <> Fulfilled (Some employee)) ->
        tr = [Prisma.FoundUnique (Prisma.WhereId (parseInt id)) r]).
Proof.
  intros (r & tr' & -> & Hk). exists r. split; [done |].
  intros Hnot. destruct r as [[employee |] | e].
  - by destruct (Hnot employee).
  - destruct Hk as [-> _]. done.
  - destruct Hk as [-> _]. done.
Qed.

(** X12. [updateEmployee] writes only what passed its gates: whenever a
    run contains a write, the id was found, the body passed validation,
    the DTO was not empty, and the write is the single update of that id
    with the payload built from the DTO, made last; its outcome is the
    outcome of the operation. *)
Theorem updateEmployee_writes (id : string) (data : CreateEmployeeData.t) tr o :
  Exec (EmployeeService.updateEmployee id data) tr o ->
  let dto := UpdateEmployeeRequestDto.new data in
  (forall ev, In ev tr -> Prisma.is_write ev = true ->
     exists employee r,
       head tr = Some (found_by_id id employee)
       /\ isValid (UpdateEmployeeRequestDto.validate dto) = true
       /\ UpdateEmployeeRequestDto.isEmpty dto = false
       /\ ev = updated id dto r /\ last tr = Some ev /\ o = r)
  /\ length (writes tr) <= 1.
Proof.
  intros Hexec dto.
  destruct (updateEmployee_first_call Hexec) as (r0 & Hhead & Hstop).
  destruct r0 as [[employee |] | e].
  2,3: rewrite Hstop by (intros ?; discriminate); split; [| cbn; lia];
       intros ev [<- | []] Hw; discriminate Hw.
  destruct (updateEmployee_runs Hexec Hhead)
    as [(_ & -> & _) | [(_ & _ & -> & _) | [(Hv & He & _ & r & -> & ->) |
                       (Hv & He & _ & r & Hr)]]].
  - split; [| cbn; lia]. intros ev [<- | []] Hw. discriminate Hw.
  - split; [| cbn; lia]. intros ev [<- | []] Hw. discriminate Hw.
  - split; [| cbn; lia]. intros ev [<- | [<- | []]] Hw; [discriminate Hw |].
    exists employee, r. done.
  - destruct r as [[other |] | e].
    + destruct Hr as [-> _]. split; [| cbn; lia].
      intros ev [<- | [<- | []]] Hw; discriminate Hw.
    + destruct Hr as (r' & -> & ->). split; [| cbn; lia].
      intros ev [<- | [<- | [<- | []]]] Hw; try discriminate Hw.
      exists employee, r'. done.
    + destruct Hr as [-> _]. split; [| cbn; lia].
      intros ev [<- | [<- | []]] Hw; discriminate Hw.
Qed.
(** X21. [updateEmployee] consults [findByEmail] only for a change of
    email: whenever a run on an existing id contains an email lookup, the
    DTO email is a non-empty string different from the stored email, the
    lookup is made on exactly that string, and it is made once, right
    after the lookup by id. *)
Theorem updateEmployee_email_lookup (id : string) (data : CreateEmployeeData.t)
    employee tr o w r :
  Exec (EmployeeService.updateEmployee id data) tr o ->
  head tr = Some (found_by_id id employee) ->
  In (looked_up_email w r) tr ->
  exists email,
    w = Some email
    /\ UpdateEmployeeRequestDto.get_email (UpdateEmployeeRequestDto.new data) = Some email
    /\ email <> "" /\ email <> Employee.email employee
    /\ tr !! 1%nat = Some (looked_up_email w r)
    /\ length (List.filter (fun ev => match ev with
                                      | Prisma.FoundUnique (Prisma.WhereEmail _) _ => true
                                      | _ => false
                                      end) tr) = 1%nat.
Proof.
  intros Hexec Hhead Hin.
  assert (Hshape : forall dto : UpdateEmployeeRequestDto.t,
            changes_email dto employee = true ->
            exists email, UpdateEmployeeRequestDto.get_email dto = Some email
                          /\ email <> "" /\ email <> Employee.email employee).
  { intros dto Hc. unfold changes_email in Hc. apply andb_true_iff in Hc as [Ht Hd].
    apply bool_decide_eq_true in Hd.
    destruct (UpdateEmployeeRequestDto.get_email dto) as [[| c email] |]; try discriminate Ht.
    exists (String c email). repeat split; [discriminate | congruence]. }
  destruct (updateEmployee_runs Hexec Hhead)
    as [(_ & -> & _) | [(_ & _ & -> & _) | [(_ & _ & _ & r' & -> & _) |
                       (_ & _ & Hc & r' & Hr)]]].
  - destruct Hin as [Heq | []]. discriminate Heq.
  - destruct Hin as [Heq | []]. discriminate Heq.
  - destruct Hin as [Heq | [Heq | []]]; discriminate Heq.
  - destruct (Hshape _ Hc) as (email & Hget & Hne & Hown). exists email.
    destruct r' as [[other |] | e].
    + destruct Hr as [-> _]. destruct Hin as [Heq | [Heq | []]]; [discriminate Heq |].
      injection Heq as <- <-. rewrite Hget. done.
    + destruct Hr as (r'' & -> & _).
      destruct Hin as [Heq | [Heq | [Heq | []]]]; try discriminate Heq.
      injection Heq as <- <-. rewrite Hget. done.
    + destruct Hr as [-> _]. destruct Hin as [Heq | [Heq | []]]; [discriminate Heq |].
      injection Heq as <- <-. rewrite Hget. done.
Qed.

End ServiceOperations.

(** ** The mapper and its projections *)

Lemma map_filter_null_non_null (f : Employee.t -> object) (l : list (option Employee.t)) :
  EmployeeMapper.map_filter_null
    (fun e => match e with None => None | Some e => Some (f e) end) l
  = List.map f (non_null l).
Proof.
  unfold EmployeeMapper.map_filter_null, non_null.
  induction l as [| [e |] l IH]; [done | |]; cbn; by rewrite <- ?IH.
Qed.

Lemma non_null_length {A : Type} (l : list (option A)) : length (non_null l) <= length l.
Proof. unfold non_null. induction l as [| [a |] l IH]; cbn; lia. Qed.

(** X13. Each array conversion of the mapper drops the null elements and
    converts the others in order, so it never returns more elements than
    it was given; a null entity converts to null and an argument that is
    not an array to the empty array. *)
Theorem mapper_arrays (l : list (option Employee.t)) :
  EmployeeMapper.toResponseDtoArray (EmployeeMapper.Array l)
  = List.map EmployeeResponseDto (non_null l)
  /\ EmployeeMapper.toDetailResponseDtoArray (EmployeeMapper.Array l)
     = List.map EmployeeDetailResponseDto (non_null l)
  /\ EmployeeMapper.toListResponseDtoArray (EmployeeMapper.Array l)
     = List.map EmployeeListResponseDto (non_null l)
  /\ length (EmployeeMapper.toListResponseDtoArray (EmployeeMapper.Array l)) <= length l
  /\ (EmployeeMapper.toResponseDto None = None
      /\ EmployeeMapper.toDetailResponseDto None = None
      /\ EmployeeMapper.toListResponseDto None = None)
  /\ (EmployeeMapper.toResponseDtoArray EmployeeMapper.NotAnArray = []
      /\ EmployeeMapper.toDetailResponseDtoArray EmployeeMapper.NotAnArray = []
      /\ EmployeeMapper.toListResponseDtoArray EmployeeMapper.NotAnArray = []).
Proof.
  split; [apply (map_filter_null_non_null EmployeeResponseDto) |].
  split; [apply (map_filter_null_non_null EmployeeDetailResponseDto) |].
  split; [apply (map_filter_null_non_null EmployeeListResponseDto) |].
  split; [| done].
  cbn [EmployeeMapper.toListResponseDtoArray].
  rewrite (map_filter_null_non_null EmployeeListResponseDto), length_map.
  apply non_null_length.
Qed.

(** X14. The three projections of one employee agree: the public
    projection is the full-detail projection without its id, and every
    field of the list projection is in the full-detail projection with the
    same value. *)
Theorem projections_agree (e : Employee.t) :
  delete "id" (EmployeeDetailResponseDto e) = EmployeeResponseDto e
  /\ EmployeeDetailResponseDto e = <["id" := VInt (Employee.id e)]> (EmployeeResponseDto e)
  /\ EmployeeListResponseDto e ⊆ EmployeeDetailResponseDto e.
Proof.
  split; [| split].
  - apply map_eq. intros k. unfold EmployeeDetailResponseDto, EmployeeResponseDto, set.
    cbv zeta. rewrite lookup_delete, !lookup_insert, !lookup_empty.
    repeat case_decide; subst; done.
  - apply map_eq. intros k. unfold EmployeeDetailResponseDto, EmployeeResponseDto, set.
    cbv zeta. rewrite !lookup_insert, !lookup_empty.
    repeat case_decide; subst; done.
  - apply map_subseteq_spec. intros k v.
    unfold EmployeeListResponseDto, EmployeeDetailResponseDto, set. cbv zeta.
    rewrite !lookup_insert, !lookup_empty.
    repeat case_decide; subst; done.
Qed.

Lemma list_dto_view (e : Employee.t) : list_view e (EmployeeListResponseDto e).
Proof.
  unfold list_view. repeat split; try decide_field;
    unfold EmployeeListResponseDto, set; cbv zeta; by simplify_map_eq.
Qed.

(** ** Substrings of error messages *)

Lemma prefix_append (k s t : string) :
  String.prefix k s = true -> String.prefix k (s +:+ t) = true.
Proof.
  revert s. induction k as [| a k IH]; intros s Hp; [by destruct (s +:+ t) |].
  destruct s as [| b s]; [discriminate Hp |].
  rewrite append_cons. cbn in Hp |- *. destruct (ascii_dec a b); [auto | done].
Qed.

Lemma includes_append_l (s t k : string) :
  includes s k = true -> includes (s +:+ t) k = true.
Proof.
  induction s as [| c s IH]; cbn [includes]; intros Hs.
  - destruct (String.prefix k "") eqn:Hp; [| discriminate Hs].
    destruct k; [| discriminate Hp]. by destruct t.
  - destruct (String.prefix k (String c s)) eqn:Hp.
    + rewrite append_cons in *. cbn [includes].
      change (String c (s +:+ t)) with (String c s +:+ t). by rewrite (prefix_append _ _ t Hp).
    + rewrite append_cons. cbn [includes].
      destruct (String.prefix k (String c (s +:+ t))); [done | auto].
Qed.

(** A joined list holds every substring of its first element. *)
Lemma includes_join (m : string) (l : list string) (k : string) :
  includes m k = true -> includes (join ", " (m :: l)) k = true.
Proof.
  intros Hm. destruct l as [| m' l]; [done |].
  change (join ", " (m :: m' :: l)) with (m +:+ ", " +:+ join ", " (m' :: l)).
  by apply includes_append_l.
Qed.

Lemma create_errors_client_error (this : CreateEmployeeRequestDto.t) :
  isValid (CreateEmployeeRequestDto.validate this) = false ->
  client_error_create (join ", " (errors (CreateEmployeeRequestDto.validate this))) = true.
Proof.
  intros Hv.
  assert (Hne : errors (CreateEmployeeRequestDto.validate this) <> []).
  { intros Hnil. apply validate_isValid in Hnil. congruence. }
  rewrite validate_errors in *.
  destruct (applicable_errors this) as [| m l] eqn:Herr; [done |].
  assert (Hin : In m (applicable_errors this)) by (rewrite Herr; by left).
  apply applicable_errors_In in Hin. unfold create_checks in Hin. unfold client_error_create.
  repeat destruct Hin as [Hin | Hin]; try done; injection Hin as _ <-.
  all: first [ rewrite (includes_join _ l "required") by reflexivity; reflexivity
             | rewrite (includes_join _ l "Invalid") by reflexivity;
               apply orb_true_iff; left; apply orb_true_r
             | rewrite (includes_join _ l "must be") by reflexivity; apply orb_true_r ].
Qed.

Lemma update_errors_client_error (this : UpdateEmployeeRequestDto.t) :
  isValid (UpdateEmployeeRequestDto.validate this) = false ->
  client_error_update (join ", " (errors (UpdateEmployeeRequestDto.validate this))) = true.
Proof.
  intros Hv.
  assert (Hne : errors (UpdateEmployeeRequestDto.validate this) <> []).
  { intros Hnil. revert Hv. unfold UpdateEmployeeRequestDto.validate in *.
    cbn [isValid errors] in *. by rewrite Hnil. }
  rewrite update_validate_errors in *.
  destruct (List.map snd (List.filter fst (update_checks this))) as [| m l] eqn:Herr; [done |].
  assert (Hin : In m (List.map snd (List.filter fst (update_checks this))))
    by (rewrite Herr; by left).
  apply in_map_iff in Hin as ([b m'] & Hm & Hin). cbn in Hm. subst m'.
  apply filter_In in Hin as [Hin _]. unfold update_checks in Hin. unfold client_error_update.
  repeat destruct Hin as [Hin | Hin]; try done; injection Hin as _ <-.
  - rewrite (includes_join _ l "Invalid") by reflexivity.
    apply orb_true_iff; left. apply orb_true_iff; left. apply orb_true_r.
  - rewrite (includes_join _ l "must be") by reflexivity.
    apply orb_true_iff; left. apply orb_true_r.
  - rewrite (includes_join _ l "Invalid") by reflexivity.
    apply orb_true_iff; left. apply orb_true_iff; left. apply orb_true_r.
Qed.

(** ** A controller is its service, then one answer *)

Lemma Exec_respond {A : Type} (svc : Async A) (g : A -> HttpResponse)
    (k : Thrown -> HttpResponse) tr o :
  Exec (try_catch (bind svc (fun a => Return (g a))) (fun e => Return (k e))) tr o
  <-> exists so, Exec svc tr so
                 /\ o = Fulfilled (match so with Fulfilled a => g a | Rejected e => k e end).
Proof.
  revert tr. induction svc as [a | e | X c cont IH]; intros tr; cbn.
  - split.
    + intros [-> ->]. by exists (Fulfilled a).
    + intros (so & [-> ->] & ->). done.
  - split.
    + intros [-> ->]. by exists (Rejected e).
    + intros (so & [-> ->] & ->). done.
  - split.
    + intros (r & tr' & -> & Hk). apply IH in Hk as (so & Hso & ->).
      exists so. split; [| done]. by exists r, tr'.
    + intros (so & (r & tr' & -> & Hso) & ->). exists r, tr'. split; [done |].
      apply IH. by exists so.
Qed.

Lemma coherent_ok (code : Z) (p : Payload) : In code [200; 201]%Z -> coherent (ok code p).
Proof.
  intros [<- | [<- | []]]; unfold coherent; cbn; intuition (done || discriminate).
Qed.

Lemma coherent_done (msg : string) : coherent (done_with 200 msg).
Proof. unfold coherent; cbn; intuition (done || discriminate). Qed.

Lemma coherent_failed (code : Z) (msg : string) :
  In code [400; 404; 500]%Z -> coherent (failed code msg).
Proof.
  intros [<- | [<- | [<- | []]]]; unfold coherent; cbn;
    intuition (try done; try discriminate; eauto).
Qed.

(** ** The controller operations *)

Section Controller.
Context `{Builtins}.

Lemma Exec_with_id {A : Type} (id : option string) (k : string -> Async A) tr so :
  Exec (EmployeeController.with_id id k) tr so ->
  match id with
  | None => tr = [] /\ so = Rejected (Error undefined_toString)
  | Some s => Exec (k s) tr so
  end.
Proof. by destruct id. Qed.

(** X15. The controller of [GET /employees/:id] answers 200 with the
    full-detail projection of the row found, 404 with "Employee not
    found" when the id has no row, and 404 or 500 with the message of the
    failure when the lookup is rejected; without an id it answers 500 and
    calls nothing. It makes no other call. *)
Theorem getEmployeeById_answer (id : option string) tr o :
  Exec (EmployeeController.getEmployeeById id) tr o ->
  match id with
  | None => tr = [] /\ o = Fulfilled (failed 500 undefined_toString)
  | Some s =>
      exists r,
        tr = [Prisma.FoundUnique (Prisma.WhereId (parseInt s)) r]
        /\ match r with
           | Fulfilled (Some e) =>
               o = Fulfilled (ok 200 (Single (Some (EmployeeDetailResponseDto e))))
           | Fulfilled None => o = Fulfilled (failed 404 "Employee not found")
           | Rejected e =>
               exists code, o = Fulfilled (failed code (error_message e))
                            /\ In code [404; 500]%Z
           end
  end.
Proof.
  intros Hexec.
  apply (Exec_respond (EmployeeController.with_id id EmployeeService.getEmployeeById)
           (fun employee => ok 200 (Single (EmployeeMapper.toDetailResponseDto (Some employee))))
           (fun error =>
              failed (match error with
                      | Error m => if String.eqb m "Employee not found" then 404%Z else 500%Z
                      | NotAnError => 500%Z
                      end) (error_message error))) in Hexec as (so & Hso & ->).
  apply Exec_with_id in Hso. destruct id as [s |].
  - destruct Hso as (r & tr' & -> & Hk). exists r.
    destruct r as [[e |] | e]; destruct Hk as [-> ->]; [done | done |]. split; [done |].
    destruct e as [m |]; [| exists 500%Z; cbn; auto].
    destruct (String.eqb m "Employee not found") eqn:Hm.
    + exists 404%Z. cbn. auto.
    + exists 500%Z. cbn. auto.
  - destruct Hso as [-> ->]. done.
Qed.

(** X16. The controller of [POST /employees] answers 400 with the
    joined messages, without calling the database, when the body fails
    validation; 400 with "Employee with this email already exists" when
    the email lookup finds a row; 201 with the full-detail projection of
    the created row when the create succeeds. When a call to the database
    is rejected it answers with the message of that failure, under the
    status 400 or 500. *)
Theorem createEmployee_answer (body : CreateEmployeeData.t) tr o :
  Exec (EmployeeController.createEmployee body) tr o ->
  let v := CreateEmployeeRequestDto.validate (CreateEmployeeRequestDto.new body) in
  exists resp,
    o = Fulfilled resp
    /\ (isValid v = false -> tr = [] /\ resp = failed 400 (join ", " (errors v)))
    /\ (forall w existing, In (looked_up_email w (Fulfilled (Some existing))) tr ->
          resp = failed 400 "Employee with this email already exists")
    /\ (forall record row, In (Prisma.Created record (Fulfilled row)) tr ->
          resp = ok 201 (Single (Some (EmployeeDetailResponseDto row))))
    /\ (forall ev e, In ev tr -> rejection ev = Some e ->
          exists code, resp = failed code (error_message e) /\ In code [400; 500]%Z).
Proof.
  intros Hexec v.
  apply (Exec_respond (EmployeeService.createEmployee body)
           (fun employee => ok 201 (Single (EmployeeMapper.toDetailResponseDto (Some employee))))
           (fun error =>
              failed (if client_error_create (error_message error) then 400%Z else 500%Z)
                (error_message error))) in Hexec as (so & Hso & ->).
  eexists. split; [reflexivity |].
  assert (Hfailed : forall e : Thrown,
            exists code,
              failed (if client_error_create (error_message e) then 400%Z else 500%Z)
                (error_message e) = failed code (error_message e)
              /\ In code [400; 500]%Z).
  { intros e. destruct (client_error_create (error_message e));
      eexists; (split; [reflexivity |]); cbn; auto. }
  apply createEmployee_runs in Hso as [(Hv & -> & ->) | (Hv & r & _ & Hr)]; fold v in Hv.
  - cbn [error_message]. rewrite (create_errors_client_error _ Hv).
    repeat split; try done; intros; by exfalso.
  - rewrite Hv. split; [discriminate |]. destruct r as [[found |] | e].
    + destruct Hr as [-> ->]. repeat split.
      * intros record row [Heq | []]. discriminate Heq.
      * intros ev e [<- | []] Hrej. discriminate Hrej.
    + destruct Hr as (r' & -> & ->). split.
      { intros w existing [Heq | [Heq | []]]; discriminate Heq. }
      destruct r' as [row | e].
      * split.
        { intros record row' [Heq | [Heq | []]]; [discriminate Heq |].
          by injection Heq as _ <-. }
        intros ev e [<- | [<- | []]] Hrej; discriminate Hrej.
      * split.
        { intros record row' [Heq | [Heq | []]]; discriminate Heq. }
        intros ev e' [<- | [<- | []]] Hrej; [discriminate Hrej |].
        injection Hrej as <-. apply Hfailed.
    + destruct Hr as [-> ->]. repeat split.
      * intros w existing [Heq | []]. discriminate Heq.
      * intros record row [Heq | []]. discriminate Heq.
      * intros ev e' [<- | []] Hrej. injection Hrej as <-. apply Hfailed.
Qed.

Lemma updateEmployee_lookup_fails (id : string) (body : CreateEmployeeData.t) tr so r :
  Exec (EmployeeService.updateEmployee id body) tr so ->
  head tr = Some (Prisma.FoundUnique (Prisma.WhereId (parseInt id)) r) ->
  match r with
  | Fulfilled (Some _) => True
  | Fulfilled None =>
      tr = [Prisma.FoundUnique (Prisma.WhereId (parseInt id)) r]
      /\ so = Rejected (Error "Employee not found")
  | Rejected e =>
      tr = [Prisma.FoundUnique (Prisma.WhereId (parseInt id)) r] /\ so = Rejected e
  end.
Proof.
  intros (r' & tr' & -> & Hk) Hhead. injection Hhead as ->.
  destruct r as [[employee |] | e]; [done | |]; destruct Hk as [-> ->]; done.
Qed.

(** X17. The controller of [PUT /employees/:id] answers 404 with
    "Employee not found" when the id has no row; for an existing id, 400
    with the joined messages when the body fails validation, 400 with "No
    fields to update" when the body names no field, 400 with "Employee
    with this email already exists" when the email lookup finds a row,
    and 200 with the full-detail projection of the updated row when the
    update succeeds. When a call to the database is rejected it answers
    with the message of that failure, under the status 400, 404 or 500. *)
Theorem updateEmployee_answer (id : string) (body : CreateEmployeeData.t) tr o :
  Exec (EmployeeController.updateEmployee (Some id) body) tr o ->
  let dto := UpdateEmployeeRequestDto.new body in
  let v := UpdateEmployeeRequestDto.validate dto in
  exists resp,
    o = Fulfilled resp
    /\ (head tr = Some (Prisma.FoundUnique (Prisma.WhereId (parseInt id)) (Fulfilled None)) ->
        resp = failed 404 "Employee not found")
    /\ (forall employee, head tr = Some (found_by_id id employee) ->
          (isValid v = false -> resp = failed 400 (join ", " (errors v)))
          /\ (isValid v = true -> UpdateEmployeeRequestDto.isEmpty dto = true ->
              resp = failed 400 "No fields to update")
          /\ (forall w other, In (looked_up_email w (Fulfilled (Some other))) tr ->
                resp = failed 400 "Employee with this email already exists")
          /\ (forall key payload row, In (Prisma.Updated key payload (Fulfilled row)) tr ->
                resp = ok 200 (Single (Some (EmployeeDetailResponseDto row)))))
    /\ (forall ev e, In ev tr -> rejection ev = Some e ->
          exists code, resp = failed code (error_message e) /\ In code [400; 404; 500]%Z).
Proof.
  intros Hexec dto v.
  apply (Exec_respond
           (EmployeeController.with_id (Some id)
              (fun id => EmployeeService.updateEmployee id body))
           (fun employee => ok 200 (Single (EmployeeMapper.toDetailResponseDto (Some employee))))
           (fun error =>
              failed (if String.eqb (error_message error) "Employee not found" then 404%Z
                      else if client_error_update (error_message error) then 400%Z
                           else 500%Z)
                (error_message error))) in Hexec as (so & Hso & ->).
  cbn [EmployeeController.with_id] in Hso.
  eexists. split; [reflexivity |].
  assert (Hfailed : forall e : Thrown,
            exists code,
              failed (if String.eqb (error_message e) "Employee not found" then 404%Z
                      else if client_error_update (error_message e) then 400%Z
                           else 500%Z)
                (error_message e) = failed code (error_message e)
              /\ In code [400; 404; 500]%Z).
  { intros e. destruct (String.eqb (error_message e) "Employee not found");
      [| destruct (client_error_update (error_message e))];
      eexists; (split; [reflexivity |]); cbn; auto. }
  destruct (updateEmployee_first_call Hso) as (r0 & Hhead & _).
  pose proof (updateEmployee_lookup_fails Hso Hhead) as Hfails.
  destruct r0 as [[employee |] | e].
  - clear Hfails. split; [rewrite Hhead; discriminate |].
    assert (Hcases :
      (isValid v = false -> so = Rejected (Error (join ", " (errors v))))
      /\ (isValid v = true -> UpdateEmployeeRequestDto.isEmpty dto = true ->
          so = Rejected (Error "No fields to update"))
      /\ (forall w other, In (looked_up_email w (Fulfilled (Some other))) tr ->
            so = Rejected conflict)
      /\ (forall key payload row, In (Prisma.Updated key payload (Fulfilled row)) tr ->
            so = Fulfilled row)
      /\ (forall ev e, In ev tr -> rejection ev = Some e -> so = Rejected e)).
    { destruct (updateEmployee_runs Hso Hhead)
        as [(Hv & -> & ->) | [(Hv & He & -> & ->) | [(Hv & He & _ & r & -> & ->) |
                             (Hv & He & _ & r & Hr)]]]; fold dto in Hv |- *; fold v in Hv |- *.
      - rewrite Hv. repeat split; try done; try (intros; by exfalso).
        + intros w other [Heq | []]. discriminate Heq.
        + intros key payload row [Heq | []]. discriminate Heq.
        + intros ev e [<- | []] Hrej. discriminate Hrej.
      - fold dto in He. rewrite Hv, He. repeat split; try done.
        + intros w other [Heq | []]. discriminate Heq.
        + intros key payload row [Heq | []]. discriminate Heq.
        + intros ev e [<- | []] Hrej. discriminate Hrej.
      - fold dto in He. rewrite Hv, He. repeat split; try done.
        + intros w other [Heq | [Heq | []]]; discriminate Heq.
        + intros key payload row [Heq | [Heq | []]]; [discriminate Heq |].
          by injection Heq as _ _ <-.
        + intros ev e [<- | [<- | []]] Hrej; [discriminate Hrej |].
          destruct r as [row | e']; [discriminate Hrej | by injection Hrej as <-].
      - fold dto in He. rewrite Hv, He. split; [done |]. split; [done |].
        destruct r as [[other |] | e'].
        + destruct Hr as [-> ->]. repeat split.
          * intros key payload row [Heq | [Heq | []]]; discriminate Heq.
          * intros ev e [<- | [<- | []]] Hrej; discriminate Hrej.
        + destruct Hr as (r' & -> & ->). repeat split.
          * intros w other [Heq | [Heq | [Heq | []]]]; discriminate Heq.
          * intros key payload row [Heq | [Heq | [Heq | []]]]; try discriminate Heq.
            by injection Heq as _ _ <-.
          * intros ev e [<- | [<- | [<- | []]]] Hrej; try discriminate Hrej.
            destruct r' as [row | e']; [discriminate Hrej | by injection Hrej as <-].
        + destruct Hr as [-> ->]. repeat split.
          * intros w other [Heq | [Heq | []]]; discriminate Heq.
          * intros key payload row [Heq | [Heq | []]]; discriminate Heq.
          * intros ev e [<- | [<- | []]] Hrej; [discriminate Hrej |].
            by injection Hrej as <-. }
    destruct Hcases as (Hinvalid & Hempty & Hconflict & Hupdated & Hrejected).
    split.
    + intros employee' _. split; [| split; [| split]].
      * intros Hv. rewrite (Hinvalid Hv). cbn [error_message].
        pose proof (update_errors_client_error dto Hv) as Hclient. fold v in Hclient.
        destruct (String.eqb (join ", " (errors v)) "Employee not found") eqn:Hnf.
        { apply String.eqb_eq in Hnf. rewrite Hnf in Hclient. discriminate Hclient. }
        by rewrite Hclient.
      * intros Hv He. by rewrite (Hempty Hv He).
      * intros w other Hin. by rewrite (Hconflict w other Hin).
      * intros key payload row Hin. by rewrite (Hupdated key payload row Hin).
    + intros ev e Hin Hrej. rewrite (Hrejected ev e Hin Hrej). apply Hfailed.
  - destruct Hfails as [-> ->]. split; [done |]. split; [intros; discriminate |].
    intros ev e [<- | []] Hrej. discriminate Hrej.
  - destruct Hfails as [-> ->]. split; [intros; discriminate |].
    split; [intros; discriminate |].
    intros ev e' [<- | []] Hrej. injection Hrej as <-. apply Hfailed.
Qed.

(** X18. The controller of [DELETE /employees/:id] answers 404 with
    "Employee not found", without invoking the delete, when the id has no
    row, and 200 with the message "Employee deleted successfully" and no
    data when the delete succeeds. *)
Theorem deleteEmployee_answer (id : string) tr o :
  Exec (EmployeeController.deleteEmployee (Some id)) tr o ->
  exists resp,
    o = Fulfilled resp
    /\ (head tr = Some (Prisma.FoundUnique (Prisma.WhereId (parseInt id)) (Fulfilled None)) ->
        tr = [Prisma.FoundUnique (Prisma.WhereId (parseInt id)) (Fulfilled None)]
        /\ resp = failed 404 "Employee not found")
    /\ (forall key row, In (Prisma.Deleted key (Fulfilled row)) tr ->
          key = parseInt id
          /\ resp = done_with 200 "Employee deleted successfully")
    /\ (status resp = 500%Z -> existsb rejected_call tr = true).
Proof.
  intros Hexec.
  apply (Exec_respond
           (EmployeeController.with_id (Some id) EmployeeService.deleteEmployee)
           (fun _ => done_with 200 "Employee deleted successfully")
           (fun error =>
              failed (if String.eqb (error_message error) "Employee not found" then 404%Z
                      else 500%Z)
                (error_message error))) in Hexec as (so & Hso & ->).
  cbn [EmployeeController.with_id] in Hso.
  eexists. split; [reflexivity |].
  destruct Hso as (r & tr' & -> & Hk).
  destruct r as [[employee |] | e].
  - destruct Hk as (r' & tr'' & -> & Hk). split; [intros Heq; discriminate Heq |].
    assert (Hr : tr'' = [] /\ so = r') by (destruct r'; destruct Hk as [-> ->]; done).
    destruct Hr as [-> ->].
    destruct r' as [row | e].
    + split; [| discriminate]. intros key row' [Heq | [Heq | []]]; [discriminate Heq |].
      by injection Heq as <- _.
    + split; [| done]. intros key row' [Heq | [Heq | []]]; discriminate Heq.
  - destruct Hk as [-> ->]. split; [done |]. split; [| discriminate].
    intros key row [Heq | []]. discriminate Heq.
  - destruct Hk as [-> ->]. split; [intros Heq; discriminate Heq |]. split; [| done].
    intros key row [Heq | []]. discriminate Heq.
Qed.

(** X19. The controller of [GET /employees/department/:department]
    answers 400 with "Department is required", without calling the
    database, when the department is missing or empty; otherwise it lists
    the rows of that department through the list projection: one element
    per row, in order, each with the id, name, email, position and
    department of its row and without a salary field. *)
Theorem getEmployeesByDepartment_answer (department : option string) tr o :
  Exec (EmployeeController.getEmployeesByDepartment department) tr o ->
  match department with
  | None | Some "" => tr = [] /\ o = Fulfilled (failed 400 "Department is required")
  | Some d =>
      exists r, tr = [Prisma.FoundMany (Some d) r]
        /\ match r with
           | Fulfilled rows =>
               exists dtos, o = Fulfilled (ok 200 (Many dtos)) /\ Forall2 list_view rows dtos
           | Rejected e =>
               exists code, o = Fulfilled (failed code (error_message e))
                            /\ In code [400; 500]%Z
           end
  end.
Proof.
  intros Hexec.
  apply (Exec_respond (EmployeeService.getEmployeesByDepartment department)
           (fun employees =>
              ok 200 (Many (EmployeeMapper.toListResponseDtoArray
                              (EmployeeMapper.Array (List.map Some employees)))))
           (fun error =>
              failed (if String.eqb (error_message error) "Department is required"
                      then 400%Z else 500%Z)
                (error_message error))) in Hexec as (so & Hso & ->).
  destruct department as [[| c d] |]; [by destruct Hso as [-> ->] | | by destruct Hso as [-> ->]].
  destruct Hso as (r & tr' & -> & Hk). exists r.
  assert (Hr : tr' = [] /\ so = r) by (destruct r; destruct Hk as [-> ->]; done).
  destruct Hr as [-> ->]. split; [done |].
  destruct r as [rows | e].
  - eexists. split; [reflexivity |].
    cbn [EmployeeMapper.toListResponseDtoArray].
    rewrite (map_filter_null_Some EmployeeListResponseDto).
    clear. induction rows as [| e l IH]; constructor; [apply list_dto_view | exact IH].
  - destruct (String.eqb (error_message e) "Department is required");
      eexists; (split; [reflexivity |]); cbn; auto.
Qed.

(** X20. No controller operation ever throws: each run ends with one
    answer, whose status is 200, 201, 400, 404 or 500, whose success flag
    is true exactly for 200 and 201, and which carries an error message
    and no data whenever the flag is false. *)
Theorem controllers_always_answer tr o :
  (Exec EmployeeController.getAllEmployees tr o
   \/ (exists id, Exec (EmployeeController.getEmployeeById id) tr o)
   \/ (exists body, Exec (EmployeeController.createEmployee body) tr o)
   \/ (exists id body, Exec (EmployeeController.updateEmployee id body) tr o)
   \/ (exists id, Exec (EmployeeController.deleteEmployee id) tr o)
   \/ (exists department, Exec (EmployeeController.getEmployeesByDepartment department) tr o)) ->
  exists resp, o = Fulfilled resp /\ coherent resp.
Proof.
  intros [Hexec | [(id & Hexec) | [(body & Hexec) | [(id & body & Hexec) | [(id & Hexec) |
          (department & Hexec)]]]]].
  - apply (Exec_respond EmployeeService.getAllEmployees
             (fun employees =>
                ok 200 (Many (EmployeeMapper.toResponseDtoArray
                                (EmployeeMapper.Array (List.map Some employees)))))
             (fun error => failed 500 (error_message error))) in Hexec as (so & _ & ->).
    eexists. split; [reflexivity |].
    destruct so; [apply coherent_ok | apply coherent_failed]; cbn; auto.
  - apply (Exec_respond (EmployeeController.with_id id EmployeeService.getEmployeeById)
             (fun employee =>
                ok 200 (Single (EmployeeMapper.toDetailResponseDto (Some employee))))
             (fun error =>
                failed (match error with
                        | Error m => if String.eqb m "Employee not found" then 404%Z else 500%Z
                        | NotAnError => 500%Z
                        end) (error_message error))) in Hexec as (so & _ & ->).
    eexists. split; [reflexivity |].
    destruct so as [a | [m |]]; [apply coherent_ok | | apply coherent_failed]; cbn; auto.
    destruct (String.eqb m "Employee not found"); apply coherent_failed; cbn; auto.
  - apply (Exec_respond (EmployeeService.createEmployee body)
             (fun employee =>
                ok 201 (Single (EmployeeMapper.toDetailResponseDto (Some employee))))
             (fun error =>
                failed (if client_error_create (error_message error) then 400%Z else 500%Z)
                  (error_message error))) in Hexec as (so & _ & ->).
    eexists. split; [reflexivity |].
    destruct so as [a | e]; [apply coherent_ok; cbn; auto |].
    destruct (client_error_create (error_message e)); apply coherent_failed; cbn; auto.
  - apply (Exec_respond
             (EmployeeController.with_id id (fun id => EmployeeService.updateEmployee id body))
             (fun employee =>
                ok 200 (Single (EmployeeMapper.toDetailResponseDto (Some employee))))
             (fun error =>
                failed (if String.eqb (error_message error) "Employee not found" then 404%Z
                        else if client_error_update (error_message error) then 400%Z
                             else 500%Z)
                  (error_message error))) in Hexec as (so & _ & ->).
    eexists. split; [reflexivity |].
    destruct so as [a | e]; [apply coherent_ok; cbn; auto |].
    destruct (String.eqb (error_message e) "Employee not found");
      [| destruct (client_error_update (error_message e))]; apply coherent_failed; cbn; auto.
  - apply (Exec_respond (EmployeeController.with_id id EmployeeService.deleteEmployee)
             (fun _ => done_with 200 "Employee deleted successfully")
             (fun error =>
                failed (if String.eqb (error_message error) "Employee not found" then 404%Z
                        else 500%Z)
                  (error_message error))) in Hexec as (so & _ & ->).
    eexists. split; [reflexivity |].
    destruct so as [a | e]; [apply coherent_done |].
    destruct (String.eqb (error_message e) "Employee not found");
      apply coherent_failed; cbn; auto.
  - apply (Exec_respond (EmployeeService.getEmployeesByDepartment department)
             (fun employees =>
                ok 200 (Many (EmployeeMapper.toListResponseDtoArray
                                (EmployeeMapper.Array (List.map Some employees)))))
             (fun error =>
                failed (if String.eqb (error_message error) "Department is required"
                        then 400%Z else 500%Z)
                  (error_message error))) in Hexec as (so & _ & ->).
    eexists. split; [reflexivity |].
    destruct so as [a | e]; [apply coherent_ok; cbn; auto |].
    destruct (String.eqb (error_message e) "Department is required");
      apply coherent_failed; cbn; auto.
Qed.

End Controller.

(** ** The further properties at work on the reference engine *)

(** Builds an execution with the given trace, call by call, reducing the
    program only as far as its next call. *)
Ltac exec_head :=
  repeat (match goal with
          | |- Exec ?p ?tr ?o =>
              let p' := eval lazy head in p in change (Exec p' tr o); cbn [Exec]
          end;
          first [ split; reflexivity
                | eexists; eexists; split; [reflexivity |] ]).

Lemma getEmployeeById_runs_witness :
  let tr := [found_by_id "1" Sample.alice] in
  let o := Fulfilled Sample.alice in
  Exec (EmployeeService.getEmployeeById "1") tr o
  /\ exists r,
      tr = [Prisma.FoundUnique (Prisma.WhereId (parseInt "1")) r]
      /\ o = match r with
             | Fulfilled (Some employee) => Fulfilled employee
             | Fulfilled None => Rejected (Error "Employee not found")
             | Rejected e => Rejected e
             end.
Proof.
  intros tr o.
  assert (Hexec : Exec (EmployeeService.getEmployeeById "1") tr o) by exec_head.
  split; [exact Hexec |].
  exact (@getEmployeeById_runs Engine.builtins "1" tr o Hexec).
Defined.

Lemma deleteEmployee_runs_witness :
  let lookup := found_by_id "1" Sample.alice in
  let tr := [lookup; Prisma.Deleted (parseInt "1") (Fulfilled Sample.alice)] in
  let o := Fulfilled Sample.alice in
  Exec (EmployeeService.deleteEmployee "1") tr o
  /\ exists r,
      head tr = Some (Prisma.FoundUnique (Prisma.WhereId (parseInt "1")) r)
      /\ match r with
         | Fulfilled (Some _) =>
             exists r', tr = [Prisma.FoundUnique (Prisma.WhereId (parseInt "1")) r;
                              Prisma.Deleted (parseInt "1") r']
                        /\ o = r'
         | Fulfilled None =>
             tr = [Prisma.FoundUnique (Prisma.WhereId (parseInt "1")) r]
             /\ o = Rejected (Error "Employee not found")
         | Rejected e =>
             tr = [Prisma.FoundUnique (Prisma.WhereId (parseInt "1")) r] /\ o = Rejected e
         end.
Proof.
  intros lookup tr o.
  assert (Hexec : Exec (EmployeeService.deleteEmployee "1") tr o) by exec_head.
  split; [exact Hexec |].
  exact (@deleteEmployee_runs Engine.builtins "1" tr o Hexec).
Defined.

Lemma getEmployeesByDepartment_runs_witness :
  let tr := [Prisma.FoundMany (Some "Eng") (Fulfilled [Sample.alice])] in
  let o := Fulfilled [Sample.alice] in
  Exec (EmployeeService.getEmployeesByDepartment (Some "Eng")) tr o
  /\ exists r, tr = [Prisma.FoundMany (Some "Eng") r] /\ o = r.
Proof.
  intros tr o.
  assert (Hexec : Exec (EmployeeService.getEmployeesByDepartment (Some "Eng")) tr o)
    by exec_head.
  split; [exact Hexec |].
  exact (@getEmployeesByDepartment_runs (Some "Eng") tr o Hexec).
Defined.

Lemma createEmployee_writes_witness :
  let dto := CreateEmployeeRequestDto.new Scenario.john in
  let ev := Prisma.Created (created_record dto) (Fulfilled Scenario.john_row) in
  let tr := [looked_up_email (Some "john@ex.com") (Fulfilled None); ev] in
  let o := Fulfilled Scenario.john_row in
  Exec (EmployeeService.createEmployee Scenario.john) tr o
  /\ In ev tr /\ Prisma.is_write ev = true
  /\ isValid (CreateEmployeeRequestDto.validate dto) = true
  /\ tr = [looked_up_email (CreateEmployeeRequestDto.email dto) (Fulfilled None); ev]
  /\ (exists r, ev = Prisma.Created (created_record dto) r /\ o = r)
  /\ length (writes tr) <= 1.
Proof.
  intros dto ev tr o.
  assert (Hexec : Exec (EmployeeService.createEmployee Scenario.john) tr o) by exec_head.
  assert (Hin : In ev tr) by (right; left; reflexivity).
  destruct (@createEmployee_writes Engine.builtins Scenario.john tr o Hexec)
    as (_ & Hwrite & Hone).
  destruct (Hwrite ev Hin eq_refl) as (Hvalid & Htr & Hev).
  split; [exact Hexec |]. split; [exact Hin |]. split; [reflexivity |].
  split; [exact Hvalid |]. split; [exact Htr |]. split; [exact Hev | exact Hone].
Defined.

Lemma updateEmployee_not_found_witness :
  let lookup := Prisma.FoundUnique (Prisma.WhereId (parseInt "9")) (Fulfilled None) in
  let o : Settled Employee.t := Rejected (Error "Employee not found") in
  Exec (EmployeeService.updateEmployee "9" Scenario.own_email_bad_salary) [lookup] o
  /\ head [lookup] = Some lookup
  /\ [lookup] = [lookup] /\ o = Rejected (Error "Employee not found").
Proof.
  intros lookup o.
  assert (Hexec : Exec (EmployeeService.updateEmployee "9" Scenario.own_email_bad_salary)
                    [lookup] o) by exec_head.
  split; [exact Hexec |]. split; [reflexivity |].
  exact (@updateEmployee_not_found Engine.builtins "9" Scenario.own_email_bad_salary
           [lookup] o Hexec eq_refl).
Defined.

Lemma updateEmployee_writes_witness :
  let dto := UpdateEmployeeRequestDto.new Scenario.keep_own_email in
  let ev := updated "1" dto (Fulfilled Sample.alice) in
  let tr := [found_by_id "1" Sample.alice; ev] in
  let o := Fulfilled Sample.alice in
  Exec (EmployeeService.updateEmployee "1" Scenario.keep_own_email) tr o
  /\ In ev tr /\ Prisma.is_write ev = true
  /\ (exists employee r,
        head tr = Some (found_by_id "1" employee)
        /\ isValid (UpdateEmployeeRequestDto.validate dto) = true
        /\ UpdateEmployeeRequestDto.isEmpty dto = false
        /\ ev = updated "1" dto r /\ last tr = Some ev /\ o = r)
  /\ length (writes tr) <= 1.
Proof.
  intros dto ev tr o.
  assert (Hexec : Exec (EmployeeService.updateEmployee "1" Scenario.keep_own_email) tr o)
    by exec_head.
  assert (Hin : In ev tr) by (right; left; reflexivity).
  destruct (@updateEmployee_writes Engine.builtins "1" Scenario.keep_own_email tr o Hexec)
    as (Hwrite & Hone).
  split; [exact Hexec |]. split; [exact Hin |]. split; [reflexivity |].
  split; [exact (Hwrite ev Hin eq_refl) | exact Hone].
Defined.

Lemma getEmployeeById_answer_witness :
  let tr := [found_by_id "1" Sample.alice] in
  let o := Fulfilled (ok 200 (Single (Some (EmployeeDetailResponseDto Sample.alice)))) in
  Exec (EmployeeController.getEmployeeById (Some "1")) tr o
  /\ exists r,
      tr = [Prisma.FoundUnique (Prisma.WhereId (parseInt "1")) r]
      /\ match r with
         | Fulfilled (Some e) =>
             o = Fulfilled (ok 200 (Single (Some (EmployeeDetailResponseDto e))))
         | Fulfilled None => o = Fulfilled (failed 404 "Employee not found")
         | Rejected e =>
             exists code, o = Fulfilled (failed code (error_message e))
                          /\ In code [404; 500]%Z
         end.
Proof.
  intros tr o.
  assert (Hexec : Exec (EmployeeController.getEmployeeById (Some "1")) tr o) by exec_head.
  split; [exact Hexec |].
  exact (@getEmployeeById_answer Engine.builtins (Some "1") tr o Hexec).
Defined.

Lemma createEmployee_answer_witness :
  let dto := CreateEmployeeRequestDto.new Scenario.john in
  let created := Prisma.Created (created_record dto) (Fulfilled Scenario.john_row) in
  let tr := [looked_up_email (Some "john@ex.com") (Fulfilled None); created] in
  let resp := ok 201 (Single (Some (EmployeeDetailResponseDto Scenario.john_row))) in
  Exec (EmployeeController.createEmployee Scenario.john) tr (Fulfilled resp)
  /\ In created tr
  /\ exists resp', Fulfilled resp = Fulfilled resp'
                   /\ resp' = ok 201 (Single (Some (EmployeeDetailResponseDto Scenario.john_row))).
Proof.
  intros dto created tr resp.
  assert (Hexec : Exec (EmployeeController.createEmployee Scenario.john) tr (Fulfilled resp))
    by exec_head.
  assert (Hin : In created tr) by (right; left; reflexivity).
  destruct (@createEmployee_answer Engine.builtins Scenario.john tr _ Hexec)
    as (resp' & Ho & _ & _ & Hcreated & _).
  split; [exact Hexec |]. split; [exact Hin |].
  exists resp'. split; [exact Ho |]. exact (Hcreated _ _ Hin).
Defined.

(** The scenario [PUT /employees/1 {}] of the specification. *)
Lemma updateEmployee_answer_witness :
  let tr := [found_by_id "1" Sample.alice] in
  let resp := failed 400 "No fields to update" in
  Exec (EmployeeController.updateEmployee (Some "1") CreateEmployeeData.empty) tr
    (Fulfilled resp)
  /\ head tr = Some (found_by_id "1" Sample.alice)
  /\ exists resp', Fulfilled resp = Fulfilled resp' /\ resp' = failed 400 "No fields to update".
Proof.
  intros tr resp.
  assert (Hexec : Exec (EmployeeController.updateEmployee (Some "1") CreateEmployeeData.empty)
                    tr (Fulfilled resp)) by exec_head.
  destruct (@updateEmployee_answer Engine.builtins "1" CreateEmployeeData.empty tr _ Hexec)
    as (resp' & Ho & _ & Hfound & _).
  destruct (Hfound Sample.alice eq_refl) as (_ & Hempty & _).
  split; [exact Hexec |]. split; [reflexivity |].
  exists resp'. split; [exact Ho |]. exact (Hempty eq_refl eq_refl).
Defined.

Lemma deleteEmployee_answer_witness :
  let deleted := Prisma.Deleted (parseInt "1") (Fulfilled Sample.alice) in
  let tr := [found_by_id "1" Sample.alice; deleted] in
  let resp := done_with 200 "Employee deleted successfully" in
  Exec (EmployeeController.deleteEmployee (Some "1")) tr (Fulfilled resp)
  /\ In deleted tr
  /\ exists resp', Fulfilled resp = Fulfilled resp'
                   /\ parseInt "1" = parseInt "1"
                   /\ resp' = done_with 200 "Employee deleted successfully".
Proof.
  intros deleted tr resp.
  assert (Hexec : Exec (EmployeeController.deleteEmployee (Some "1")) tr (Fulfilled resp))
    by exec_head.
  assert (Hin : In deleted tr) by (right; left; reflexivity).
  destruct (@deleteEmployee_answer Engine.builtins "1" tr _ Hexec)
    as (resp' & Ho & _ & Hdeleted & _).
  split; [exact Hexec |]. split; [exact Hin |].
  exists resp'. split; [exact Ho |]. exact (Hdeleted _ _ Hin).
Defined.

Lemma getEmployeesByDepartment_answer_witness :
  let tr := [Prisma.FoundMany (Some "Eng") (Fulfilled [Sample.alice])] in
  let o := Fulfilled (ok 200 (Many [EmployeeListResponseDto Sample.alice])) in
  Exec (EmployeeController.getEmployeesByDepartment (Some "Eng")) tr o
  /\ exists r, tr = [Prisma.FoundMany (Some "Eng") r]
      /\ match r with
         | Fulfilled rows =>
             exists dtos, o = Fulfilled (ok 200 (Many dtos)) /\ Forall2 list_view rows dtos
         | Rejected e =>
             exists code, o = Fulfilled (failed code (error_message e))
                          /\ In code [400; 500]%Z
         end.
Proof.
  intros tr o.
  assert (Hexec : Exec (EmployeeController.getEmployeesByDepartment (Some "Eng")) tr o)
    by exec_head.
  split; [exact Hexec |].
  exact (@getEmployeesByDepartment_answer (Some "Eng") tr o Hexec).
Defined.

Lemma controllers_always_answer_witness :
  let tr := [Prisma.FoundMany None (Rejected (Error "Connection refused"))] in
  let o := Fulfilled (failed 500 "Connection refused") in
  Exec EmployeeController.getAllEmployees tr o
  /\ exists resp, o = Fulfilled resp /\ coherent resp.
Proof.
  intros tr o.
  assert (Hexec : Exec EmployeeController.getAllEmployees tr o) by exec_head.
  split; [exact Hexec |].
  exact (@controllers_always_answer Engine.builtins tr o (or_introl Hexec)).
Defined.

Lemma updateEmployee_email_lookup_witness :
  let lookup := looked_up_email (Some "bob@ex.com") (Fulfilled (Some Sample.bob)) in
  let tr := [found_by_id "1" Sample.alice; lookup] in
  let o : Settled Employee.t := Rejected conflict in
  Exec (EmployeeService.updateEmployee "1" Scenario.take_bobs_email) tr o
  /\ head tr = Some (found_by_id "1" Sample.alice)
  /\ In lookup tr
  /\ exists email,
      Some "bob@ex.com" = Some email
      /\ UpdateEmployeeRequestDto.get_email
           (UpdateEmployeeRequestDto.new Scenario.take_bobs_email) = Some email
      /\ email <> "" /\ email <> Employee.email Sample.alice
      /\ tr !! 1%nat = Some lookup
      /\ length (List.filter (fun ev => match ev with
                                        | Prisma.FoundUnique (Prisma.WhereEmail _) _ => true
                                        | _ => false
                                        end) tr) = 1%nat.
Proof.
  intros lookup tr o.
  assert (Hexec : Exec (EmployeeService.updateEmployee "1" Scenario.take_bobs_email) tr o)
    by exec_head.
  assert (Hin : In lookup tr) by (right; left; reflexivity).
  split; [exact Hexec |]. split; [reflexivity |]. split; [exact Hin |].
  exact (@updateEmployee_email_lookup Engine.builtins "1" Scenario.take_bobs_email
           Sample.alice tr o _ _ Hexec eq_refl Hin).
Defined.

Lemma isValidEmail_shape_witness :
  address_shape "john@ex.com"
  /\ CreateEmployeeRequestDto.isValidEmail (Some "john@ex.com") = true
  /\ count_char "@" "john@ex.com" = 1
  /\ all_chars (fun c => negb (is_white_space c)) "john@ex.com" = true.
Proof.
  destruct (isValidEmail_shape "john@ex.com") as (Hcreate & _ & Hone).
  assert (Hshape : address_shape "john@ex.com").
  { exists "john", "ex", "com". unfold token. repeat split; discriminate. }
  split; [exact Hshape |]. split; [exact (proj2 Hcreate Hshape) | exact (Hone Hshape)].
Defined.

Lemma create_blank_text_is_missing_witness :
  let data := with_email (Sample.john (Val (inl (JNumber (number_of_Z 75000))))) (Val "   ") in
  missing_text (CreateEmployeeData.email data)
  /\ In "Email is required"
       (errors (CreateEmployeeRequestDto.validate (CreateEmployeeRequestDto.new data))).
Proof.
  intros data.
  assert (Hblank : missing_text (CreateEmployeeData.email data)) by reflexivity.
  destruct (@create_blank_text_is_missing Engine.builtins data) as (_ & Hemail & _).
  split; [exact Hblank | exact (proj2 Hemail Hblank)].
Defined.

Lemma create_valid_iff_witness :
  isValid (CreateEmployeeRequestDto.validate (CreateEmployeeRequestDto.new Scenario.john)) = true
  /\ (exists e, CreateEmployeeData.email Scenario.john = Val e
                /\ address_shape (toLowerCase (trim e)))
  /\ num_lt zero (ToNumber (coerce_salary (CreateEmployeeData.salary Scenario.john))) = true.
Proof.
  assert (Hvalid : isValid (CreateEmployeeRequestDto.validate
                              (CreateEmployeeRequestDto.new Scenario.john)) = true)
    by (vm_compute; reflexivity).
  destruct (proj1 (@create_valid_iff Engine.builtins Scenario.john) Hvalid)
    as (_ & Hemail & _ & _ & Hsalary & _).
  split; [exact Hvalid |]. split; [exact Hemail | exact Hsalary].
Defined.

Lemma update_isEmpty_iff_witness :
  UpdateEmployeeRequestDto.isEmpty (UpdateEmployeeRequestDto.new CreateEmployeeData.empty) = true
  /\ UpdateEmployeeRequestDto.isEmpty (UpdateEmployeeRequestDto.new (null_field "name")) = false.
Proof.
  split.
  - exact (proj2 (@update_isEmpty_iff Engine.builtins CreateEmployeeData.empty) eq_refl).
  - destruct (UpdateEmployeeRequestDto.isEmpty (UpdateEmployeeRequestDto.new (null_field "name")))
      eqn:Hempty; [| reflexivity].
    apply (@update_isEmpty_iff Engine.builtins) in Hempty. discriminate Hempty.
Defined.
